(** * SDN zone resource of the Proxmox Terraform provider

    A shallow embedding of the SDN zone transport client
    ([proxmox/cluster/sdn/zones]) and of the zone resource
    ([fwprovider/cluster/sdn/zones]), with the properties of the
    conversions between the resource model and the API body. *)

From Stdlib Require Import String Ascii List ZArith Bool Lia.
From Stdlib Require Import Sorting.Sorted Sorting.Permutation.
Import ListNotations.
Open Scope string_scope.

(** ** Go values *)

(** Go's [int32]; the code only stores and copies these numbers, so no
    arithmetic and no wrap-around is involved. *)
Definition int32 : Type := Z.

(** A Go call either returns or panics (here: a nil pointer dereference). *)
Inductive outcome (A : Type) : Type :=
| Ok (a : A)
| Panic (msg : string).
Arguments Ok {A} a.
Arguments Panic {A} msg.

Definition bind {A B : Type} (c : outcome A) (k : A -> outcome B) : outcome B :=
  match c with
  | Ok a => k a
  | Panic msg => Panic msg
  end.

Notation "x <- c ;; k" := (bind c (fun x => k))
  (at level 61, c at next level, right associativity).

(** [*p] for a pointer [p]. *)
Definition deref {A : Type} (p : option A) : outcome A :=
  match p with
  | Some a => Ok a
  | None => Panic "invalid memory address or nil pointer dereference"
  end.

(** ** Package [strings] of the Go standard library *)
Module strings.

(** [strings.Join(elems, sep)]. *)
Fixpoint Join (elems : list string) (sep : string) : string :=
  match elems with
  | [] => ""
  | [s] => s
  | s :: rest => s ++ sep ++ Join rest sep
  end.

(** [strings.Split(s, sep)] for a separator of one byte, which is the only
    way the code calls it: the pieces between the separators, in order;
    a string without separator gives one piece. *)
Fixpoint Split (s : string) (sep : ascii) : list string :=
  match s with
  | EmptyString => [""]
  | String c rest =>
      if Ascii.eqb c sep then "" :: Split rest sep
      else match Split rest sep with
           | [] => [String c ""]
           | piece :: pieces => String c piece :: pieces
           end
  end.

Fixpoint HasPrefix (s prefix : string) : bool :=
  match prefix, s with
  | EmptyString, _ => true
  | String p prefix', String c s' => Ascii.eqb c p && HasPrefix s' prefix'
  | String _ _, EmptyString => false
  end.

(** [strings.Contains(s, substr)]. *)
Fixpoint Contains (s substr : string) : bool :=
  HasPrefix s substr ||
  match s with
  | EmptyString => false
  | String _ s' => Contains s' substr
  end.

End strings.

(** ** Errors *)

(** The errors the transport client hands out: the sentinel of package
    [api], an error of the HTTP layer ([DoRequest]), and
    [fmt.Errorf("<prefix>: %w", err)]. *)
Inductive error : Type :=
| ErrNoDataObjectInResponse
| ErrRequest (msg : string)
| Errorf (prefix : string) (wrapped : error).

(** ** Diagnostics (package [diag]) *)
Module diag.

Inductive Severity : Type := SeverityError | SeverityWarning.

Record Diagnostic : Type := mkDiagnostic {
  severity : Severity;
  summary : string;
  detail : string
}.

Definition Diagnostics : Type := list Diagnostic.

Definition Severity_eqb (a b : Severity) : bool :=
  match a, b with
  | SeverityError, SeverityError | SeverityWarning, SeverityWarning => true
  | _, _ => false
  end.

Definition Equal (a b : Diagnostic) : bool :=
  Severity_eqb (severity a) (severity b)
  && String.eqb (summary a) (summary b)
  && String.eqb (detail a) (detail b).

Definition ContainsDiag (diags : Diagnostics) (d : Diagnostic) : bool :=
  existsb (Equal d) diags.

(** [Append] skips a diagnostic that the collection already holds. *)
Definition Append1 (diags : Diagnostics) (d : Diagnostic) : Diagnostics :=
  if ContainsDiag diags d then diags else (diags ++ [d])%list.

Definition Append (diags new : Diagnostics) : Diagnostics :=
  fold_left Append1 new diags.

Definition AddError (diags : Diagnostics) (s d : string) : Diagnostics :=
  Append1 diags (mkDiagnostic SeverityError s d).

Definition AddWarning (diags : Diagnostics) (s d : string) : Diagnostics :=
  Append1 diags (mkDiagnostic SeverityWarning s d).

Definition HasError (diags : Diagnostics) : bool :=
  existsb (fun d => Severity_eqb (severity d) SeverityError) diags.

End diag.

(** ** Values of the Terraform plugin framework (package [types]) *)
Module types.

(** A framework value is null, unknown or known; the zero value is null. *)
Inductive value (A : Type) : Type :=
| Null
| Unknown
| Known (a : A).
Arguments Null {A}.
Arguments Unknown {A}.
Arguments Known {A} a.

Definition String : Type := value string.
Definition Int32 : Type := value int32.
Definition Bool : Type := value bool.
(** [types.List] with element type [types.StringType]. *)
Definition List : Type := value (list String).

Definition IsNull {A} (v : value A) : bool :=
  match v with Null => true | _ => false end.
Definition IsUnknown {A} (v : value A) : bool :=
  match v with Unknown => true | _ => false end.

(** [ValueString], [ValueStringPointer], [ValueInt32Pointer] and
    [ValueBoolPointer]: an unknown value reads as the zero value, and only
    a null value gives a nil pointer. *)
Definition ValueString (s : String) : string :=
  match s with Known x => x | _ => "" end.
Definition ValueStringPointer (s : String) : option string :=
  match s with Null => None | Unknown => Some "" | Known x => Some x end.
Definition ValueInt32Pointer (i : Int32) : option int32 :=
  match i with Null => None | Unknown => Some 0%Z | Known x => Some x end.
Definition ValueBoolPointer (b : Bool) : option bool :=
  match b with Null => None | Unknown => Some false | Known x => Some x end.

Definition StringValue (s : string) : String := Known s.
Definition PointerValue {A} (p : option A) : value A :=
  match p with None => Null | Some x => Known x end.
Definition StringPointerValue : option string -> String := PointerValue.
Definition Int32PointerValue : option int32 -> Int32 := PointerValue.
Definition BoolPointerValue : option bool -> Bool := PointerValue.

(** [types.ListNull(types.StringType)]. *)
Definition ListNull : List := Null.

(** [list.ElementsAs(ctx, &strs, false)] into a [[]types.String]: the
    elements as they are; a target of framework values takes null and
    unknown elements, so nothing is reported. *)
Definition ElementsAs (elements : list String)
  : list String * diag.Diagnostics :=
  (elements, []).

(** [types.ListValueFrom(ctx, types.StringType, parts)] from a [[]string]. *)
Definition ListValueFrom (parts : list string) : List * diag.Diagnostics :=
  (Known (map StringValue parts), []).

End types.

(** ** Package [zones]: the transport client *)
Module zones.

Record SdnZoneBody : Type := mkSdnZoneBody {
  Name : string;
  Type_ : option string;
  Delete : option string;
  AdvertiseSubnets : option bool;
  Bridge : option string;
  BridgeDisableMacLearning : option bool;
  Controller : option string;
  Dhcp : option string;
  DisableArpNdSuppression : option bool;
  Dns : option string;
  Dnszone : option string;
  DpID : option int32;
  Exitnodes : option string;
  ExitnodesLocalRouting : option bool;
  ExitnodesPrimary : option string;
  Ipam : option string;
  Mac : option string;
  Mtu : option int32;
  Nodes : option string;
  Peers : option string;
  Reversedns : option string;
  RtImport : option string;
  Tag : option int32;
  VlanProtocol : option string;
  VrfVxlan : option int32;
  VxlanPort : option int32
}.

Definition set_Type_ (v : option string) (b : SdnZoneBody) : SdnZoneBody :=
  mkSdnZoneBody (Name b) v (Delete b) (AdvertiseSubnets b) (Bridge b)
    (BridgeDisableMacLearning b) (Controller b) (Dhcp b)
    (DisableArpNdSuppression b) (Dns b) (Dnszone b) (DpID b) (Exitnodes b)
    (ExitnodesLocalRouting b) (ExitnodesPrimary b) (Ipam b) (Mac b) (Mtu b)
    (Nodes b) (Peers b) (Reversedns b) (RtImport b) (Tag b) (VlanProtocol b)
    (VrfVxlan b) (VxlanPort b).

Definition set_Delete (v : option string) (b : SdnZoneBody) : SdnZoneBody :=
  mkSdnZoneBody (Name b) (Type_ b) v (AdvertiseSubnets b) (Bridge b)
    (BridgeDisableMacLearning b) (Controller b) (Dhcp b)
    (DisableArpNdSuppression b) (Dns b) (Dnszone b) (DpID b) (Exitnodes b)
    (ExitnodesLocalRouting b) (ExitnodesPrimary b) (Ipam b) (Mac b) (Mtu b)
    (Nodes b) (Peers b) (Reversedns b) (RtImport b) (Tag b) (VlanProtocol b)
    (VrfVxlan b) (VxlanPort b).

Definition set_Dhcp (v : option string) (b : SdnZoneBody) : SdnZoneBody :=
  mkSdnZoneBody (Name b) (Type_ b) (Delete b) (AdvertiseSubnets b) (Bridge b)
    (BridgeDisableMacLearning b) (Controller b) v (DisableArpNdSuppression b)
    (Dns b) (Dnszone b) (DpID b) (Exitnodes b) (ExitnodesLocalRouting b)
    (ExitnodesPrimary b) (Ipam b) (Mac b) (Mtu b) (Nodes b) (Peers b)
    (Reversedns b) (RtImport b) (Tag b) (VlanProtocol b) (VrfVxlan b) (VxlanPort
    b).

Definition set_Bridge (v : option string) (b : SdnZoneBody) : SdnZoneBody :=
  mkSdnZoneBody (Name b) (Type_ b) (Delete b) (AdvertiseSubnets b) v
    (BridgeDisableMacLearning b) (Controller b) (Dhcp b)
    (DisableArpNdSuppression b) (Dns b) (Dnszone b) (DpID b) (Exitnodes b)
    (ExitnodesLocalRouting b) (ExitnodesPrimary b) (Ipam b) (Mac b) (Mtu b)
    (Nodes b) (Peers b) (Reversedns b) (RtImport b) (Tag b) (VlanProtocol b)
    (VrfVxlan b) (VxlanPort b).

Definition set_Peers (v : option string) (b : SdnZoneBody) : SdnZoneBody :=
  mkSdnZoneBody (Name b) (Type_ b) (Delete b) (AdvertiseSubnets b) (Bridge b)
    (BridgeDisableMacLearning b) (Controller b) (Dhcp b)
    (DisableArpNdSuppression b) (Dns b) (Dnszone b) (DpID b) (Exitnodes b)
    (ExitnodesLocalRouting b) (ExitnodesPrimary b) (Ipam b) (Mac b) (Mtu b)
    (Nodes b) v (Reversedns b) (RtImport b) (Tag b) (VlanProtocol b) (VrfVxlan
    b) (VxlanPort b).

Definition set_VxlanPort (v : option int32) (b : SdnZoneBody) : SdnZoneBody :=
  mkSdnZoneBody (Name b) (Type_ b) (Delete b) (AdvertiseSubnets b) (Bridge b)
    (BridgeDisableMacLearning b) (Controller b) (Dhcp b)
    (DisableArpNdSuppression b) (Dns b) (Dnszone b) (DpID b) (Exitnodes b)
    (ExitnodesLocalRouting b) (ExitnodesPrimary b) (Ipam b) (Mac b) (Mtu b)
    (Nodes b) (Peers b) (Reversedns b) (RtImport b) (Tag b) (VlanProtocol b)
    (VrfVxlan b) v.

Definition set_Tag (v : option int32) (b : SdnZoneBody) : SdnZoneBody :=
  mkSdnZoneBody (Name b) (Type_ b) (Delete b) (AdvertiseSubnets b) (Bridge b)
    (BridgeDisableMacLearning b) (Controller b) (Dhcp b)
    (DisableArpNdSuppression b) (Dns b) (Dnszone b) (DpID b) (Exitnodes b)
    (ExitnodesLocalRouting b) (ExitnodesPrimary b) (Ipam b) (Mac b) (Mtu b)
    (Nodes b) (Peers b) (Reversedns b) (RtImport b) v (VlanProtocol b) (VrfVxlan
    b) (VxlanPort b).

Definition set_VlanProtocol (v : option string) (b : SdnZoneBody) : SdnZoneBody :=
  mkSdnZoneBody (Name b) (Type_ b) (Delete b) (AdvertiseSubnets b) (Bridge b)
    (BridgeDisableMacLearning b) (Controller b) (Dhcp b)
    (DisableArpNdSuppression b) (Dns b) (Dnszone b) (DpID b) (Exitnodes b)
    (ExitnodesLocalRouting b) (ExitnodesPrimary b) (Ipam b) (Mac b) (Mtu b)
    (Nodes b) (Peers b) (Reversedns b) (RtImport b) (Tag b) v (VrfVxlan b)
    (VxlanPort b).

Definition set_Controller (v : option string) (b : SdnZoneBody) : SdnZoneBody :=
  mkSdnZoneBody (Name b) (Type_ b) (Delete b) (AdvertiseSubnets b) (Bridge b)
    (BridgeDisableMacLearning b) v (Dhcp b) (DisableArpNdSuppression b) (Dns b)
    (Dnszone b) (DpID b) (Exitnodes b) (ExitnodesLocalRouting b)
    (ExitnodesPrimary b) (Ipam b) (Mac b) (Mtu b) (Nodes b) (Peers b)
    (Reversedns b) (RtImport b) (Tag b) (VlanProtocol b) (VrfVxlan b) (VxlanPort
    b).

Definition set_VrfVxlan (v : option int32) (b : SdnZoneBody) : SdnZoneBody :=
  mkSdnZoneBody (Name b) (Type_ b) (Delete b) (AdvertiseSubnets b) (Bridge b)
    (BridgeDisableMacLearning b) (Controller b) (Dhcp b)
    (DisableArpNdSuppression b) (Dns b) (Dnszone b) (DpID b) (Exitnodes b)
    (ExitnodesLocalRouting b) (ExitnodesPrimary b) (Ipam b) (Mac b) (Mtu b)
    (Nodes b) (Peers b) (Reversedns b) (RtImport b) (Tag b) (VlanProtocol b) v
    (VxlanPort b).

Definition set_Mac (v : option string) (b : SdnZoneBody) : SdnZoneBody :=
  mkSdnZoneBody (Name b) (Type_ b) (Delete b) (AdvertiseSubnets b) (Bridge b)
    (BridgeDisableMacLearning b) (Controller b) (Dhcp b)
    (DisableArpNdSuppression b) (Dns b) (Dnszone b) (DpID b) (Exitnodes b)
    (ExitnodesLocalRouting b) (ExitnodesPrimary b) (Ipam b) v (Mtu b) (Nodes b)
    (Peers b) (Reversedns b) (RtImport b) (Tag b) (VlanProtocol b) (VrfVxlan b)
    (VxlanPort b).

Definition set_Exitnodes (v : option string) (b : SdnZoneBody) : SdnZoneBody :=
  mkSdnZoneBody (Name b) (Type_ b) (Delete b) (AdvertiseSubnets b) (Bridge b)
    (BridgeDisableMacLearning b) (Controller b) (Dhcp b)
    (DisableArpNdSuppression b) (Dns b) (Dnszone b) (DpID b) v
    (ExitnodesLocalRouting b) (ExitnodesPrimary b) (Ipam b) (Mac b) (Mtu b)
    (Nodes b) (Peers b) (Reversedns b) (RtImport b) (Tag b) (VlanProtocol b)
    (VrfVxlan b) (VxlanPort b).

Definition set_ExitnodesPrimary (v : option string) (b : SdnZoneBody) : SdnZoneBody :=
  mkSdnZoneBody (Name b) (Type_ b) (Delete b) (AdvertiseSubnets b) (Bridge b)
    (BridgeDisableMacLearning b) (Controller b) (Dhcp b)
    (DisableArpNdSuppression b) (Dns b) (Dnszone b) (DpID b) (Exitnodes b)
    (ExitnodesLocalRouting b) v (Ipam b) (Mac b) (Mtu b) (Nodes b) (Peers b)
    (Reversedns b) (RtImport b) (Tag b) (VlanProtocol b) (VrfVxlan b) (VxlanPort
    b).

Definition set_ExitnodesLocalRouting (v : option bool) (b : SdnZoneBody) : SdnZoneBody :=
  mkSdnZoneBody (Name b) (Type_ b) (Delete b) (AdvertiseSubnets b) (Bridge b)
    (BridgeDisableMacLearning b) (Controller b) (Dhcp b)
    (DisableArpNdSuppression b) (Dns b) (Dnszone b) (DpID b) (Exitnodes b) v
    (ExitnodesPrimary b) (Ipam b) (Mac b) (Mtu b) (Nodes b) (Peers b)
    (Reversedns b) (RtImport b) (Tag b) (VlanProtocol b) (VrfVxlan b) (VxlanPort
    b).

Definition set_AdvertiseSubnets (v : option bool) (b : SdnZoneBody) : SdnZoneBody :=
  mkSdnZoneBody (Name b) (Type_ b) (Delete b) v (Bridge b)
    (BridgeDisableMacLearning b) (Controller b) (Dhcp b)
    (DisableArpNdSuppression b) (Dns b) (Dnszone b) (DpID b) (Exitnodes b)
    (ExitnodesLocalRouting b) (ExitnodesPrimary b) (Ipam b) (Mac b) (Mtu b)
    (Nodes b) (Peers b) (Reversedns b) (RtImport b) (Tag b) (VlanProtocol b)
    (VrfVxlan b) (VxlanPort b).

Definition set_DisableArpNdSuppression (v : option bool) (b : SdnZoneBody) : SdnZoneBody :=
  mkSdnZoneBody (Name b) (Type_ b) (Delete b) (AdvertiseSubnets b) (Bridge b)
    (BridgeDisableMacLearning b) (Controller b) (Dhcp b) v (Dns b) (Dnszone b)
    (DpID b) (Exitnodes b) (ExitnodesLocalRouting b) (ExitnodesPrimary b) (Ipam
    b) (Mac b) (Mtu b) (Nodes b) (Peers b) (Reversedns b) (RtImport b) (Tag b)
    (VlanProtocol b) (VrfVxlan b) (VxlanPort b).

Definition set_RtImport (v : option string) (b : SdnZoneBody) : SdnZoneBody :=
  mkSdnZoneBody (Name b) (Type_ b) (Delete b) (AdvertiseSubnets b) (Bridge b)
    (BridgeDisableMacLearning b) (Controller b) (Dhcp b)
    (DisableArpNdSuppression b) (Dns b) (Dnszone b) (DpID b) (Exitnodes b)
    (ExitnodesLocalRouting b) (ExitnodesPrimary b) (Ipam b) (Mac b) (Mtu b)
    (Nodes b) (Peers b) (Reversedns b) v (Tag b) (VlanProtocol b) (VrfVxlan b)
    (VxlanPort b).


(** [SdnZoneListResponseBody] and [SdnZoneGetResponseBody]: a nil slice and
    a nil pointer stand for a response without data field. The elements of
    the slice are the zone objects of the response (the API sends an array
    of objects, so the pointers in the slice are not nil). *)
Record SdnZoneListResponseBody : Type := mkSdnZoneListResponseBody {
  list_Data : option (list SdnZoneBody)
}.

Record SdnZoneGetResponseBody : Type := mkSdnZoneGetResponseBody {
  get_Data : option SdnZoneBody
}.

(** [sort.Slice(x, less)] of the Go standard library, as the insertion sort
    it runs on short slices: each element moves left past the elements it
    is less than. *)
Module sort.

Fixpoint insert {A : Type} (less : A -> A -> bool) (x : A) (sorted : list A)
  : list A :=
  match sorted with
  | [] => [x]
  | y :: rest => if less x y then x :: y :: rest else y :: insert less x rest
  end.

Definition Slice {A : Type} (x : list A) (less : A -> A -> bool) : list A :=
  fold_left (fun sorted e => insert less e sorted) x [].

End sort.

(** The embedded [api.Client]: [DoRequest] performs one HTTP round trip and
    decodes the response into the body type the caller passes. *)
Record Client : Type := mkClient {
  DoRequestList :
    string -> string -> option error * SdnZoneListResponseBody;
  DoRequestGet :
    string -> string -> option error * SdnZoneGetResponseBody;
  DoRequest : string -> string -> option SdnZoneBody -> option error
}.

Definition MethodGet := "GET".
Definition MethodPost := "POST".
Definition MethodPut := "PUT".
Definition MethodDelete := "DELETE".

Definition ExpandPath (path : string) : string := "cluster/sdn/zones/" ++ path.

Section Calls.

(** [url.PathEscape] of the Go standard library. *)
Variable PathEscape : string -> string.

Variable c : Client.

Definition less (a b : SdnZoneBody) : bool := (Name a <? Name b)%string.

Definition List : option (list SdnZoneBody) * option error :=
  let '(err, resBody) := DoRequestList c MethodGet (ExpandPath "") in
  match err with
  | Some err => (None, Some (Errorf "error listing SDN zones" err))
  | None =>
      match list_Data resBody with
      | None => (None, Some ErrNoDataObjectInResponse)
      | Some data => (Some (sort.Slice data less), None)
      end
  end.

Definition Get (zone : string) : option SdnZoneBody * option error :=
  let '(err, resBody) :=
    DoRequestGet c MethodGet (ExpandPath (PathEscape zone)) in
  match err with
  | Some err => (None, Some (Errorf "error reading SDN zone" err))
  | None =>
      match get_Data resBody with
      | None => (None, Some ErrNoDataObjectInResponse)
      | Some data => (Some data, None)
      end
  end.

Definition Create (data : SdnZoneBody) : option error :=
  match DoRequest c MethodPost (ExpandPath "") (Some data) with
  | Some err => Some (Errorf "error creating SDN zone" err)
  | None => None
  end.

Definition Update (zone : string) (data : SdnZoneBody) : option error :=
  match DoRequest c MethodPut (ExpandPath (PathEscape zone)) (Some data) with
  | Some err => Some (Errorf "error updating SDN zone" err)
  | None => None
  end.

Definition Delete_ (zone : string) : option error :=
  match DoRequest c MethodDelete (ExpandPath (PathEscape zone)) None with
  | Some err => Some (Errorf "error deleting SDN zone" err)
  | None => None
  end.

End Calls.

End zones.

(** ** Package [sdn_zones]: the resource and its model *)
Module sdn_zones.
Import types.

Record sdnZoneSimpleModel : Type := mkSimple {
  simple_AutomaticDHCP : String
}.

Record sdnZoneVlanModel : Type := mkVlan {
  vlan_Bridge : String
}.

Record sdnZoneVxlanModel : Type := mkVxlan {
  vxlan_Peers : List;
  vxlan_Port : Int32
}.

Record sdnZoneQinQModel : Type := mkQinQ {
  qinq_Bridge : String;
  qinq_Tag : Int32;
  qinq_VlanProtocol : String
}.

Record sdnZoneEvpnModel : Type := mkEvpn {
  evpn_Controller : String;
  evpn_VrfVxlan : Int32;
  evpn_Mac : String;
  evpn_Exitnodes : List;
  evpn_ExitnodesPrimary : String;
  evpn_ExitnodesLocalRouting : Bool;
  evpn_AdvertiseSubnets : Bool;
  evpn_DisableArpNdSuppression : Bool;
  evpn_RtImport : String
}.

(** The variant blocks are pointers: [None] is nil. *)
Record sdnZoneResourceModel : Type := mkModel {
  Name : String;
  MTU : Int32;
  Nodes : List;
  IPAM : String;
  DNS : String;
  ReverseDNS : String;
  DNSZone : String;
  Simple : option sdnZoneSimpleModel;
  VLAN : option sdnZoneVlanModel;
  VXLAN : option sdnZoneVxlanModel;
  QinQ : option sdnZoneQinQModel;
  EVPN : option sdnZoneEvpnModel
}.

Definition set_Simple (v : option sdnZoneSimpleModel) (m : sdnZoneResourceModel) :=
  mkModel (Name m) (MTU m) (Nodes m) (IPAM m) (DNS m) (ReverseDNS m) (DNSZone m)
    v (VLAN m) (VXLAN m) (QinQ m) (EVPN m).
Definition set_VLAN (v : option sdnZoneVlanModel) (m : sdnZoneResourceModel) :=
  mkModel (Name m) (MTU m) (Nodes m) (IPAM m) (DNS m) (ReverseDNS m) (DNSZone m)
    (Simple m) v (VXLAN m) (QinQ m) (EVPN m).
Definition set_VXLAN (v : option sdnZoneVxlanModel) (m : sdnZoneResourceModel) :=
  mkModel (Name m) (MTU m) (Nodes m) (IPAM m) (DNS m) (ReverseDNS m) (DNSZone m)
    (Simple m) (VLAN m) v (QinQ m) (EVPN m).
Definition set_QinQ (v : option sdnZoneQinQModel) (m : sdnZoneResourceModel) :=
  mkModel (Name m) (MTU m) (Nodes m) (IPAM m) (DNS m) (ReverseDNS m) (DNSZone m)
    (Simple m) (VLAN m) (VXLAN m) v (EVPN m).
Definition set_EVPN (v : option sdnZoneEvpnModel) (m : sdnZoneResourceModel) :=
  mkModel (Name m) (MTU m) (Nodes m) (IPAM m) (DNS m) (ReverseDNS m) (DNSZone m)
    (Simple m) (VLAN m) (VXLAN m) (QinQ m) v.

(** The zero value [sdnZoneResourceModel{}]. *)
Definition zeroModel : sdnZoneResourceModel :=
  mkModel Null Null Null Null Null Null Null None None None None None.

(** [RemoveAllAttributes] resets all attributes except the name. *)
Definition RemoveAllAttributes (m : sdnZoneResourceModel) : sdnZoneResourceModel :=
  mkModel (Name m) Null ListNull Null Null Null Null None None None None None.

(** [convertListToString] converts a Terraform list to a comma-separated
    string. *)
Definition convertListToString (list : List) (diags : diag.Diagnostics)
  : option string * diag.Diagnostics :=
  match list with
  | Null | Unknown => (None, diags)
  | Known elements =>
      let '(strs, nodes_diags) := ElementsAs elements in
      let diags := diag.Append diags nodes_diags in
      let stringVals := map ValueString strs in
      (Some (strings.Join stringVals ","), diags)
  end.

(** [convertStringToList] converts a comma-separated string to a Terraform
    list. *)
Definition convertStringToList (value : option string) (diags : diag.Diagnostics)
  : List * diag.Diagnostics :=
  match value with
  | None => (ListNull, diags)
  | Some v =>
      if (v =? "")%string then (ListNull, diags)
      else
        let parts := strings.Split v "," in
        let '(list, listDiags) := ListValueFrom parts in
        (list, diag.Append diags listDiags)
  end.

(** [exportToSdnZoneBody] converts the resource model to a SDN zone body
    for API requests. *)
Definition exportToSdnZoneBody (m : sdnZoneResourceModel) (diags : diag.Diagnostics)
  : zones.SdnZoneBody * diag.Diagnostics :=
  let '(nodes, diags) := convertListToString (Nodes m) diags in
  let result :=
    {| zones.Name := ValueString (Name m);
       zones.Type_ := None;
       zones.Delete := None;
       zones.AdvertiseSubnets := None;
       zones.Bridge := None;
       zones.BridgeDisableMacLearning := None;
       zones.Controller := None;
       zones.Dhcp := None;
       zones.DisableArpNdSuppression := None;
       zones.Dns := ValueStringPointer (DNS m);
       zones.Dnszone := ValueStringPointer (DNSZone m);
       zones.DpID := None;
       zones.Exitnodes := None;
       zones.ExitnodesLocalRouting := None;
       zones.ExitnodesPrimary := None;
       zones.Ipam := ValueStringPointer (IPAM m);
       zones.Mac := None;
       zones.Mtu := ValueInt32Pointer (MTU m);
       zones.Nodes := nodes;
       zones.Peers := None;
       zones.Reversedns := ValueStringPointer (ReverseDNS m);
       zones.RtImport := None;
       zones.Tag := None;
       zones.VlanProtocol := None;
       zones.VrfVxlan := None;
       zones.VxlanPort := None |} in
  let '(zoneType, result, diags) :=
    match Simple m with
    | Some simple =>
        let result :=
          zones.set_Dhcp (ValueStringPointer (simple_AutomaticDHCP simple)) result in
        ("simple", result, diags)
    | None =>
    match VLAN m with
    | Some vlan =>
        let result :=
          zones.set_Bridge (ValueStringPointer (vlan_Bridge vlan)) result in
        ("vlan", result, diags)
    | None =>
    match VXLAN m with
    | Some vxlan =>
        let '(peers, diags) := convertListToString (vxlan_Peers vxlan) diags in
        let result := zones.set_Peers peers result in
        let result :=
          zones.set_VxlanPort (ValueInt32Pointer (vxlan_Port vxlan)) result in
        ("vxlan", result, diags)
    | None =>
    match QinQ m with
    | Some qinq =>
        let result :=
          zones.set_Bridge (ValueStringPointer (qinq_Bridge qinq)) result in
        let result := zones.set_Tag (ValueInt32Pointer (qinq_Tag qinq)) result in
        let result :=
          zones.set_VlanProtocol (ValueStringPointer (qinq_VlanProtocol qinq))
            result in
        ("qinq", result, diags)
    | None =>
    match EVPN m with
    | Some evpn =>
        let result :=
          zones.set_Controller (ValueStringPointer (evpn_Controller evpn)) result in
        let result :=
          zones.set_VrfVxlan (ValueInt32Pointer (evpn_VrfVxlan evpn)) result in
        let result := zones.set_Mac (ValueStringPointer (evpn_Mac evpn)) result in
        let '(exitnodes, diags) :=
          convertListToString (evpn_Exitnodes evpn) diags in
        let result := zones.set_Exitnodes exitnodes result in
        let result :=
          zones.set_ExitnodesPrimary
            (ValueStringPointer (evpn_ExitnodesPrimary evpn)) result in
        let result :=
          zones.set_ExitnodesLocalRouting
            (ValueBoolPointer (evpn_ExitnodesLocalRouting evpn)) result in
        let result :=
          zones.set_AdvertiseSubnets
            (ValueBoolPointer (evpn_AdvertiseSubnets evpn)) result in
        let result :=
          zones.set_DisableArpNdSuppression
            (ValueBoolPointer (evpn_DisableArpNdSuppression evpn)) result in
        let result :=
          zones.set_RtImport (ValueStringPointer (evpn_RtImport evpn)) result in
        ("evpn", result, diags)
    | None => ("", result, diags)
    end end end end end in
  (zones.set_Type_ (Some zoneType) result, diags).

(** [importFromSdnZoneBody] populates the resource model from a SDN zone
    body. The switch reads [*body.Type]. *)
Definition importFromSdnZoneBody (m : sdnZoneResourceModel) (body : zones.SdnZoneBody)
    (diags : diag.Diagnostics)
  : outcome (sdnZoneResourceModel * diag.Diagnostics) :=
  let '(nodes, diags) := convertStringToList (zones.Nodes body) diags in
  let m :=
    {| Name := StringValue (zones.Name body);
       MTU := Int32PointerValue (zones.Mtu body);
       Nodes := nodes;
       IPAM := StringPointerValue (zones.Ipam body);
       DNS := StringPointerValue (zones.Dns body);
       ReverseDNS := StringPointerValue (zones.Reversedns body);
       DNSZone := StringPointerValue (zones.Dnszone body);
       Simple := Simple m;
       VLAN := VLAN m;
       VXLAN := VXLAN m;
       QinQ := QinQ m;
       EVPN := EVPN m |} in
  type <- deref (zones.Type_ body) ;;
  if (type =? "simple")%string then
    Ok (set_Simple
          (Some {| simple_AutomaticDHCP := StringPointerValue (zones.Dhcp body) |})
          m, diags)
  else if (type =? "vlan")%string then
    Ok (set_VLAN
          (Some {| vlan_Bridge := StringPointerValue (zones.Bridge body) |})
          m, diags)
  else if (type =? "vxlan")%string then
    let '(peers, diags) := convertStringToList (zones.Peers body) diags in
    Ok (set_VXLAN
          (Some {| vxlan_Peers := peers;
                   vxlan_Port := Int32PointerValue (zones.VxlanPort body) |})
          m, diags)
  else if (type =? "qinq")%string then
    Ok (set_QinQ
          (Some {| qinq_Bridge := StringPointerValue (zones.Bridge body);
                   qinq_Tag := Int32PointerValue (zones.Tag body);
                   qinq_VlanProtocol :=
                     StringPointerValue (zones.VlanProtocol body) |})
          m, diags)
  else if (type =? "evpn")%string then
    let '(exitnodes, diags) := convertStringToList (zones.Exitnodes body) diags in
    Ok (set_EVPN
          (Some {| evpn_Controller := StringPointerValue (zones.Controller body);
                   evpn_VrfVxlan := Int32PointerValue (zones.VrfVxlan body);
                   evpn_Mac := StringPointerValue (zones.Mac body);
                   evpn_Exitnodes := exitnodes;
                   evpn_ExitnodesPrimary :=
                     StringPointerValue (zones.ExitnodesPrimary body);
                   evpn_ExitnodesLocalRouting :=
                     BoolPointerValue (zones.ExitnodesLocalRouting body);
                   evpn_AdvertiseSubnets :=
                     BoolPointerValue (zones.AdvertiseSubnets body);
                   evpn_DisableArpNdSuppression :=
                     BoolPointerValue (zones.DisableArpNdSuppression body);
                   evpn_RtImport := StringPointerValue (zones.RtImport body) |})
          m, diags)
  else
    Ok (m, diag.AddError diags "Invalid SDN Zone Type"
             ("SDN Zone type is not recognized: " ++ type)).

(** [if p == nil { deleteTab = append(deleteTab, name) }]. *)
Definition appendIfNil {A : Type} (p : option A) (name : string)
    (deleteTab : list string) : list string :=
  match p with
  | None => (deleteTab ++ [name])%list
  | Some _ => deleteTab
  end.

(** [exportToUpdateBody]: the body of an update request, with the unset
    fields listed in [delete] and without [type]. *)
Definition exportToUpdateBody (s : sdnZoneResourceModel) (diags : diag.Diagnostics)
  : outcome (zones.SdnZoneBody * diag.Diagnostics) :=
  let '(body, diags) := exportToSdnZoneBody s diags in
  let deleteTab : list string := [] in
  let deleteTab := appendIfNil (zones.Mtu body) "mtu" deleteTab in
  let deleteTab := appendIfNil (zones.Nodes body) "nodes" deleteTab in
  let deleteTab := appendIfNil (zones.Ipam body) "ipam" deleteTab in
  let deleteTab := appendIfNil (zones.Dns body) "dns" deleteTab in
  let deleteTab := appendIfNil (zones.Reversedns body) "reversedns" deleteTab in
  let deleteTab := appendIfNil (zones.Dnszone body) "dnszone" deleteTab in
  type <- deref (zones.Type_ body) ;;
  let deleteTab :=
    if (type =? "simple")%string then
      appendIfNil (zones.Dhcp body) "dhcp" deleteTab
    else if (type =? "vlan")%string then
      appendIfNil (zones.Bridge body) "bridge" deleteTab
    else if (type =? "vxlan")%string then
      let deleteTab := appendIfNil (zones.Peers body) "peers" deleteTab in
      appendIfNil (zones.VxlanPort body) "vxlan-port" deleteTab
    else if (type =? "qinq")%string then
      let deleteTab := appendIfNil (zones.Bridge body) "bridge" deleteTab in
      let deleteTab := appendIfNil (zones.Tag body) "tag" deleteTab in
      appendIfNil (zones.VlanProtocol body) "vlan-protocol" deleteTab
    else if (type =? "evpn")%string then
      let deleteTab := appendIfNil (zones.Controller body) "controller" deleteTab in
      let deleteTab := appendIfNil (zones.VrfVxlan body) "vrf-vxlan" deleteTab in
      let deleteTab := appendIfNil (zones.Mac body) "mac" deleteTab in
      let deleteTab := appendIfNil (zones.Exitnodes body) "exitnodes" deleteTab in
      let deleteTab :=
        appendIfNil (zones.ExitnodesPrimary body) "exitnodes-primary" deleteTab in
      let deleteTab :=
        appendIfNil (zones.ExitnodesLocalRouting body) "exitnodes-local-routing"
          deleteTab in
      let deleteTab :=
        appendIfNil (zones.AdvertiseSubnets body) "advertise-subnets" deleteTab in
      let deleteTab :=
        appendIfNil (zones.DisableArpNdSuppression body)
          "disable-arp-nd-suppression" deleteTab in
      appendIfNil (zones.RtImport body) "rt-import" deleteTab
    else deleteTab in
  let body :=
    match deleteTab with
    | [] => body
    | _ :: _ => zones.set_Delete (Some (strings.Join deleteTab ",")) body
    end in
  Ok (zones.set_Type_ None body, diags).

(** *** The schema

    The attributes of the resource schema, by key, with their kind and
    their required, optional and computed flags; validators, defaults and
    plan modifiers are left out. *)
Inductive Attribute : Type :=
| StringAttribute (required optional computed : bool)
| Int32Attribute (required optional computed : bool)
| BoolAttribute (required optional computed : bool)
| ListAttribute (required optional computed : bool).

(** An attribute of the resource itself: a plain one or a nested block. *)
Inductive RootAttribute : Type :=
| Plain (a : Attribute)
| SingleNestedAttribute (optional : bool) (attributes : list (string * Attribute)).

Definition Schema : list (string * RootAttribute) :=
  [ ("name", Plain (StringAttribute true false false));
    ("mtu", Plain (Int32Attribute false true false));
    ("nodes", Plain (ListAttribute false true false));
    ("ipam", Plain (StringAttribute false true true));
    ("dns", Plain (StringAttribute false true false));
    ("reversedns", Plain (StringAttribute false true false));
    ("dnszone", Plain (StringAttribute false true false));
    ("simple", SingleNestedAttribute true
       [ ("dhcp", StringAttribute false true false) ]);
    ("vlan", SingleNestedAttribute true
       [ ("bridge", StringAttribute true false false) ]);
    ("vxlan", SingleNestedAttribute true
       [ ("peers", ListAttribute true false false);
         ("port", Int32Attribute false true true) ]);
    ("qinq", SingleNestedAttribute true
       [ ("bridge", StringAttribute true false false);
         ("tag", Int32Attribute true false false);
         ("vlan_protocol", StringAttribute false true true) ]);
    ("evpn", SingleNestedAttribute true
       [ ("controller", StringAttribute true false false);
         ("vfr_vxlan", Int32Attribute true false false);
         ("mac", StringAttribute false true true);
         ("exitnodes", ListAttribute false true true);
         ("exitnodes_primary", StringAttribute false true true);
         ("exitnodes_local_routing", BoolAttribute false true true);
         ("advertise_subnets", BoolAttribute false true true);
         ("disable_arp_nd_suppression", BoolAttribute false true true);
         ("rt_import", StringAttribute false true true) ]) ].

Fixpoint lookup {A : Type} (key : string) (l : list (string * A)) : option A :=
  match l with
  | [] => None
  | (k, a) :: rest => if (k =? key)%string then Some a else lookup key rest
  end.

(** The keys a nested block of the schema declares. *)
Definition blockAttributes (block : string) : list string :=
  match lookup block Schema with
  | Some (SingleNestedAttribute _ attributes) => map fst attributes
  | _ => []
  end.

(** The [tfsdk] tags of the fields of [sdnZoneEvpnModel], in field order. *)
Definition sdnZoneEvpnModel_tfsdk : list string :=
  [ "controller"; "vrf_vxlan"; "mac"; "exitnodes"; "exitnodes_primary";
    "exitnodes_local_routing"; "advertise_subnets";
    "disable_arp_nd_suppression"; "rt_import" ].

(** The [tfsdk] tags of the other model structs, in field order. *)
Definition sdnZoneResourceModel_tfsdk : list string :=
  [ "name"; "mtu"; "nodes"; "ipam"; "dns"; "reversedns"; "dnszone";
    "simple"; "vlan"; "vxlan"; "qinq"; "evpn" ].
Definition sdnZoneSimpleModel_tfsdk : list string := [ "dhcp" ].
Definition sdnZoneVlanModel_tfsdk : list string := [ "bridge" ].
Definition sdnZoneVxlanModel_tfsdk : list string := [ "peers"; "port" ].
Definition sdnZoneQinQModel_tfsdk : list string :=
  [ "bridge"; "tag"; "vlan_protocol" ].

(** The function of [recreatemodifier], the plan modifier that each of the
    five nested blocks lists: [resp.RequiresReplace] for a block whose
    value is null or not in the state and in the plan. *)
Definition recreatemodifier (stateValueIsNull planValueIsNull : bool) : bool :=
  if Bool.eqb stateValueIsNull planValueIsNull then false else true.

(** *** Reading and deleting *)
Section Resource.

(** The message of [api.ErrNoDataObjectInResponse]. *)
Variable noDataObjectMessage : string.

(** [url.PathEscape] of the Go standard library. *)
Variable PathEscape : string -> string.

(** [r.client.Cluster().SDN().Zones()]. *)
Variable client : zones.Client.

(** [err.Error()]. *)
Fixpoint Error (err : error) : string :=
  match err with
  | ErrNoDataObjectInResponse => noDataObjectMessage
  | ErrRequest msg => msg
  | Errorf prefix wrapped => prefix ++ ": " ++ Error wrapped
  end.

(** [read] fetches the current state of the resource from the Proxmox API
    and updates the model. *)
Definition read (model : sdnZoneResourceModel) (diags : diag.Diagnostics)
  : outcome (sdnZoneResourceModel * diag.Diagnostics) :=
  let '(zone, err) := zones.Get PathEscape client (ValueString (Name model)) in
  match err with
  | Some err =>
      if strings.Contains (Error err) "does not exist" then
        let diags :=
          diag.AddWarning diags "SDN Zone Not Found"
            ("SDN zone " ++ ValueString (Name model)
               ++ " does not exist, setting to empty state") in
        Ok (RemoveAllAttributes model, diags)
      else
        let diags :=
          diag.AddError diags "Error listing SDN Zones"
            ("Failed to list SDN zones: " ++ Error err) in
        Ok (model, diags)
  | None =>
      zone <- deref zone ;;
      importFromSdnZoneBody model zone diags
  end.

(** [Delete] deletes the resource; [reqState] is what [req.State.Get]
    yields, [respDiags] the diagnostics of the response so far. The
    framework removes the resource from the state when the response has
    no error. *)
Definition Delete (reqState : sdnZoneResourceModel * diag.Diagnostics)
    (respDiags : diag.Diagnostics) : diag.Diagnostics :=
  let '(state, diags) := reqState in
  let respDiags := diag.Append respDiags diags in
  if diag.HasError respDiags then respDiags
  else
    match zones.Delete_ PathEscape client (ValueString (Name state)) with
    | Some err =>
        if strings.Contains (Error err) "does not exist" then
          diag.AddWarning respDiags "SDN Zone Not Found"
            ("SDN zone " ++ ValueString (Name state)
               ++ " does not exist, skipping deletion")
        else
          diag.AddError respDiags "Error Deleting SDN Zone"
            ("Failed to delete SDN zone " ++ ValueString (Name state)
               ++ ": " ++ Error err)
    | None => respDiags
    end.

(** [Create], [Read] and [Update]. [reqPlan] and [reqState] are what
    [req.Plan.Get] and [req.State.Get] yield, [stateSet] gives the
    diagnostics of [resp.State.Set], and [respDiags] are the diagnostics of
    the response so far. The result holds the diagnostics of the response
    and the model handed to [resp.State.Set], if it is reached. *)
Definition Create (reqPlan : sdnZoneResourceModel * diag.Diagnostics)
    (stateSet : sdnZoneResourceModel -> diag.Diagnostics)
    (respDiags : diag.Diagnostics)
  : outcome (diag.Diagnostics * option sdnZoneResourceModel) :=
  let '(plan, diags) := reqPlan in
  let respDiags := diag.Append respDiags diags in
  if diag.HasError respDiags then Ok (respDiags, None)
  else
    let '(body, respDiags) := exportToSdnZoneBody plan respDiags in
    match zones.Create client body with
    | Some err =>
        Ok (diag.AddError respDiags "Error Creating SDN Zone"
              ("Failed to list SDN zones: " ++ Error err), None)
    | None =>
        r <- read plan respDiags ;;
        let '(plan, respDiags) := r in
        if diag.HasError respDiags then Ok (respDiags, None)
        else Ok (diag.Append respDiags (stateSet plan), Some plan)
    end.

Definition Read (reqState : sdnZoneResourceModel * diag.Diagnostics)
    (stateSet : sdnZoneResourceModel -> diag.Diagnostics)
    (respDiags : diag.Diagnostics)
  : outcome (diag.Diagnostics * option sdnZoneResourceModel) :=
  let '(state, diags) := reqState in
  let respDiags := diag.Append respDiags diags in
  if diag.HasError respDiags then Ok (respDiags, None)
  else
    r <- read state respDiags ;;
    let '(state, respDiags) := r in
    if diag.HasError respDiags then Ok (respDiags, None)
    else Ok (diag.Append respDiags (stateSet state), Some state).

Definition Update (reqPlan : sdnZoneResourceModel * diag.Diagnostics)
    (stateSet : sdnZoneResourceModel -> diag.Diagnostics)
    (respDiags : diag.Diagnostics)
  : outcome (diag.Diagnostics * option sdnZoneResourceModel) :=
  let '(plan, diags) := reqPlan in
  let respDiags := diag.Append respDiags diags in
  if diag.HasError respDiags then Ok (respDiags, None)
  else
    e <- exportToUpdateBody plan respDiags ;;
    let '(body, respDiags) := e in
    match zones.Update PathEscape client (types.ValueString (Name plan)) body with
    | Some err =>
        Ok (diag.AddError respDiags "Error Updating SDN Zone"
              ("Failed to update SDN zone " ++ types.ValueString (Name plan)
                 ++ ": " ++ Error err), None)
    | None =>
        r <- read plan respDiags ;;
        let '(plan, respDiags) := r in
        if diag.HasError respDiags then Ok (respDiags, None)
        else Ok (diag.Append respDiags (stateSet plan), Some plan)
    end.

End Resource.

End sdn_zones.

(** ** Vocabulary of the properties *)

Import sdn_zones.

(** The five zone types, in the order in which the code inspects their
    blocks. *)
Inductive variant : Type := VSimple | VVlan | VVxlan | VQinQ | VEvpn.

Definition priority : list variant := [VSimple; VVlan; VVxlan; VQinQ; VEvpn].

Definition discriminant (v : variant) : string :=
  match v with
  | VSimple => "simple"
  | VVlan => "vlan"
  | VVxlan => "vxlan"
  | VQinQ => "qinq"
  | VEvpn => "evpn"
  end.

Definition isNil {A : Type} (p : option A) : bool :=
  match p with None => true | Some _ => false end.

(** Whether the block of a variant is populated (its pointer is not nil). *)
Definition is_set (m : sdnZoneResourceModel) (v : variant) : bool :=
  match v with
  | VSimple => negb (isNil (Simple m))
  | VVlan => negb (isNil (VLAN m))
  | VVxlan => negb (isNil (VXLAN m))
  | VQinQ => negb (isNil (QinQ m))
  | VEvpn => negb (isNil (EVPN m))
  end.

Definition first_variant (m : sdnZoneResourceModel) : option variant :=
  find (is_set m) priority.

Definition exactly_one (m : sdnZoneResourceModel) : Prop :=
  length (filter (is_set m) priority) = 1.

(** The optional fields of the wire record that the resource uses, with
    their wire names (the [url] tags of [SdnZoneBody]). *)
Inductive wire_field : Type :=
| FMtu | FNodes | FIpam | FDns | FReversedns | FDnszone
| FDhcp | FBridge | FPeers | FVxlanPort | FTag | FVlanProtocol
| FController | FVrfVxlan | FMac | FExitnodes | FExitnodesPrimary
| FExitnodesLocalRouting | FAdvertiseSubnets | FDisableArpNdSuppression
| FRtImport.

Definition wire_name (f : wire_field) : string :=
  match f with
  | FMtu => "mtu"
  | FNodes => "nodes"
  | FIpam => "ipam"
  | FDns => "dns"
  | FReversedns => "reversedns"
  | FDnszone => "dnszone"
  | FDhcp => "dhcp"
  | FBridge => "bridge"
  | FPeers => "peers"
  | FVxlanPort => "vxlan-port"
  | FTag => "tag"
  | FVlanProtocol => "vlan-protocol"
  | FController => "controller"
  | FVrfVxlan => "vrf-vxlan"
  | FMac => "mac"
  | FExitnodes => "exitnodes"
  | FExitnodesPrimary => "exitnodes-primary"
  | FExitnodesLocalRouting => "exitnodes-local-routing"
  | FAdvertiseSubnets => "advertise-subnets"
  | FDisableArpNdSuppression => "disable-arp-nd-suppression"
  | FRtImport => "rt-import"
  end.

(** Whether a field of a wire record is null. *)
Definition is_nil (b : zones.SdnZoneBody) (f : wire_field) : bool :=
  match f with
  | FMtu => isNil (zones.Mtu b)
  | FNodes => isNil (zones.Nodes b)
  | FIpam => isNil (zones.Ipam b)
  | FDns => isNil (zones.Dns b)
  | FReversedns => isNil (zones.Reversedns b)
  | FDnszone => isNil (zones.Dnszone b)
  | FDhcp => isNil (zones.Dhcp b)
  | FBridge => isNil (zones.Bridge b)
  | FPeers => isNil (zones.Peers b)
  | FVxlanPort => isNil (zones.VxlanPort b)
  | FTag => isNil (zones.Tag b)
  | FVlanProtocol => isNil (zones.VlanProtocol b)
  | FController => isNil (zones.Controller b)
  | FVrfVxlan => isNil (zones.VrfVxlan b)
  | FMac => isNil (zones.Mac b)
  | FExitnodes => isNil (zones.Exitnodes b)
  | FExitnodesPrimary => isNil (zones.ExitnodesPrimary b)
  | FExitnodesLocalRouting => isNil (zones.ExitnodesLocalRouting b)
  | FAdvertiseSubnets => isNil (zones.AdvertiseSubnets b)
  | FDisableArpNdSuppression => isNil (zones.DisableArpNdSuppression b)
  | FRtImport => isNil (zones.RtImport b)
  end.

Definition base_fields : list wire_field :=
  [FMtu; FNodes; FIpam; FDns; FReversedns; FDnszone].

Definition variant_fields (v : variant) : list wire_field :=
  match v with
  | VSimple => [FDhcp]
  | VVlan => [FBridge]
  | VVxlan => [FPeers; FVxlanPort]
  | VQinQ => [FBridge; FTag; FVlanProtocol]
  | VEvpn => [FController; FVrfVxlan; FMac; FExitnodes; FExitnodesPrimary;
              FExitnodesLocalRouting; FAdvertiseSubnets;
              FDisableArpNdSuppression; FRtImport]
  end.

(** The fields that apply to a zone type. *)
Definition applicable (v : variant) : list wire_field :=
  (base_fields ++ variant_fields v)%list.

(** The fields that belong to some variant. *)
Definition all_variant_fields : list wire_field :=
  [FDhcp; FBridge; FPeers; FVxlanPort; FTag; FVlanProtocol; FController;
   FVrfVxlan; FMac; FExitnodes; FExitnodesPrimary; FExitnodesLocalRouting;
   FAdvertiseSubnets; FDisableArpNdSuppression; FRtImport].

(** The names listed in the [delete] field of an update body. *)
Definition delete_list (b : zones.SdnZoneBody) : list string :=
  match zones.Delete b with
  | None => []
  | Some s => strings.Split s ","
  end.

(** The wire record of a model and the wire string of a list, apart from
    the diagnostics. *)
Definition wireRecord (m : sdnZoneResourceModel) : zones.SdnZoneBody :=
  fst (exportToSdnZoneBody m []).

Definition listPointer (l : types.List) : option string :=
  fst (convertListToString l []).

Fixpoint comma_free (s : string) : bool :=
  match s with
  | EmptyString => true
  | String.String c rest => negb (Ascii.eqb c ",") && comma_free rest
  end.

Definition is_known {A : Type} (v : types.value A) : bool :=
  match v with types.Known _ => true | _ => false end.

(** A populated list: known, with known elements. *)
Definition list_populated (l : types.List) : bool :=
  match l with
  | types.Known elements => forallb is_known elements
  | _ => false
  end.

(** A list that survives the comma-separated encoding: it is populated
    and not empty, no element holds a comma, and it is not the list of
    one empty string. *)
Definition comma_safe (l : types.List) : bool :=
  match l with
  | types.Known elements =>
      forallb is_known elements
      && forallb (fun e => comma_free (types.ValueString e)) elements
      && match elements with
         | [] => false
         | [e] => negb (types.ValueString e =? "")%string
         | _ => true
         end
  | _ => false
  end.

Definition block_holds {A : Type} (p : A -> bool) (block : option A) : bool :=
  match block with
  | None => true
  | Some a => p a
  end.

(** All fields of the configuration are populated: the base attributes
    and the attributes of every block that is set. *)
Definition all_populated (m : sdnZoneResourceModel) : bool :=
  is_known (Name m) && is_known (MTU m) && list_populated (Nodes m)
  && is_known (IPAM m) && is_known (DNS m) && is_known (ReverseDNS m)
  && is_known (DNSZone m)
  && block_holds (fun s => is_known (simple_AutomaticDHCP s)) (Simple m)
  && block_holds (fun s => is_known (vlan_Bridge s)) (VLAN m)
  && block_holds
       (fun s => list_populated (vxlan_Peers s) && is_known (vxlan_Port s))
       (VXLAN m)
  && block_holds
       (fun s => is_known (qinq_Bridge s) && is_known (qinq_Tag s)
                 && is_known (qinq_VlanProtocol s))
       (QinQ m)
  && block_holds
       (fun s => is_known (evpn_Controller s) && is_known (evpn_VrfVxlan s)
                 && is_known (evpn_Mac s) && list_populated (evpn_Exitnodes s)
                 && is_known (evpn_ExitnodesPrimary s)
                 && is_known (evpn_ExitnodesLocalRouting s)
                 && is_known (evpn_AdvertiseSubnets s)
                 && is_known (evpn_DisableArpNdSuppression s)
                 && is_known (evpn_RtImport s))
       (EVPN m).

(** The list attributes of the configuration survive the encoding. *)
Definition lists_comma_safe (m : sdnZoneResourceModel) : bool :=
  comma_safe (Nodes m)
  && block_holds (fun s => comma_safe (vxlan_Peers s)) (VXLAN m)
  && block_holds (fun s => comma_safe (evpn_Exitnodes s)) (EVPN m).

(** Exporting a configuration and importing the result into the model
    [target]. *)
Definition roundtrip (target m : sdnZoneResourceModel) (diags : diag.Diagnostics)
  : outcome (sdnZoneResourceModel * diag.Diagnostics) :=
  let '(body, diags) := exportToSdnZoneBody m diags in
  importFromSdnZoneBody target body diags.

(** The wire form of a list attribute, in the words of the API: the
    strings of the elements joined with commas, and nothing for a list that
    is null or unknown. *)
Definition wireList (l : types.List) : option string :=
  match l with
  | types.Known elements =>
      Some (String.concat "," (map types.ValueString elements))
  | types.Null | types.Unknown => None
  end.

(** The wire record holds the fields of the block of variant [v]: the
    scalar fields as pointers to their values, the list fields in their
    wire form. *)
Definition variant_copied (m : sdnZoneResourceModel) (v : variant)
    (b : zones.SdnZoneBody) : Prop :=
  match v with
  | VSimple =>
      exists s, Simple m = Some s
        /\ zones.Dhcp b = types.ValueStringPointer (simple_AutomaticDHCP s)
  | VVlan =>
      exists s, VLAN m = Some s
        /\ zones.Bridge b = types.ValueStringPointer (vlan_Bridge s)
  | VVxlan =>
      exists s, VXLAN m = Some s
        /\ zones.Peers b = wireList (vxlan_Peers s)
        /\ zones.VxlanPort b = types.ValueInt32Pointer (vxlan_Port s)
  | VQinQ =>
      exists s, QinQ m = Some s
        /\ zones.Bridge b = types.ValueStringPointer (qinq_Bridge s)
        /\ zones.Tag b = types.ValueInt32Pointer (qinq_Tag s)
        /\ zones.VlanProtocol b
           = types.ValueStringPointer (qinq_VlanProtocol s)
  | VEvpn =>
      exists s, EVPN m = Some s
        /\ zones.Controller b = types.ValueStringPointer (evpn_Controller s)
        /\ zones.VrfVxlan b = types.ValueInt32Pointer (evpn_VrfVxlan s)
        /\ zones.Mac b = types.ValueStringPointer (evpn_Mac s)
        /\ zones.Exitnodes b = wireList (evpn_Exitnodes s)
        /\ zones.ExitnodesPrimary b
           = types.ValueStringPointer (evpn_ExitnodesPrimary s)
        /\ zones.ExitnodesLocalRouting b
           = types.ValueBoolPointer (evpn_ExitnodesLocalRouting s)
        /\ zones.AdvertiseSubnets b
           = types.ValueBoolPointer (evpn_AdvertiseSubnets s)
        /\ zones.DisableArpNdSuppression b
           = types.ValueBoolPointer (evpn_DisableArpNdSuppression s)
        /\ zones.RtImport b = types.ValueStringPointer (evpn_RtImport s)
  end.

(** A zone of type evpn with every attribute set. *)
Definition evpnExample : sdnZoneResourceModel :=
  {| Name := types.Known "zone1";
     MTU := types.Known 1450%Z;
     Nodes := types.Known [types.Known "pve1"; types.Known "pve2"];
     IPAM := types.Known "pve";
     DNS := types.Known "dns1";
     ReverseDNS := types.Known "dns2";
     DNSZone := types.Known "example.com";
     Simple := None;
     VLAN := None;
     VXLAN := None;
     QinQ := None;
     EVPN :=
       Some {| evpn_Controller := types.Known "ctrl";
               evpn_VrfVxlan := types.Known 4000%Z;
               evpn_Mac := types.Known "32:8E:7A:11:22:33";
               evpn_Exitnodes := types.Known [types.Known "pve1"];
               evpn_ExitnodesPrimary := types.Known "pve1";
               evpn_ExitnodesLocalRouting := types.Known true;
               evpn_AdvertiseSubnets := types.Known false;
               evpn_DisableArpNdSuppression := types.Known false;
               evpn_RtImport := types.Known "65000:1" |} |}.

(** A populated configuration whose node list holds a name with a comma. *)
Definition commaExample : sdnZoneResourceModel :=
  {| Name := types.Known "zone1";
     MTU := types.Known 1450%Z;
     Nodes := types.Known [types.Known "a,b"];
     IPAM := types.Known "pve";
     DNS := types.Known "dns1";
     ReverseDNS := types.Known "dns2";
     DNSZone := types.Known "example.com";
     Simple := Some {| simple_AutomaticDHCP := types.Known "dnsmasq" |};
     VLAN := None;
     VXLAN := None;
     QinQ := None;
     EVPN := None |}.

(** A zone of type vxlan with every attribute set and two peers. *)
Definition vxlanExample : sdnZoneResourceModel :=
  {| Name := types.Known "z2";
     MTU := types.Known 1450%Z;
     Nodes := types.Known [types.Known "pve1"; types.Known "pve2"];
     IPAM := types.Known "pve";
     DNS := types.Known "dns1";
     ReverseDNS := types.Known "dns2";
     DNSZone := types.Known "example.com";
     Simple := None;
     VLAN := None;
     VXLAN :=
       Some {| vxlan_Peers :=
                 types.Known [types.Known "10.0.0.1"; types.Known "10.0.0.2"];
               vxlan_Port := types.Known 4789%Z |};
     QinQ := None;
     EVPN := None |}.

(** The zone "z1" of type vlan on the bridge "vmbr0", with the default
    IPAM and nothing else set. *)
Definition vlanExample : sdnZoneResourceModel :=
  {| Name := types.Known "z1";
     MTU := types.Null;
     Nodes := types.Null;
     IPAM := types.Known "pve";
     DNS := types.Null;
     ReverseDNS := types.Null;
     DNSZone := types.Null;
     Simple := None;
     VLAN := Some {| vlan_Bridge := types.Known "vmbr0" |};
     VXLAN := None;
     QinQ := None;
     EVPN := None |}.

(** A wire record for the zone "z1" without any optional field, that is,
    the JSON object with the key zone only; and the same record with the
    type faucet, which the API knows and the resource does not. *)
Definition namedRecord (name : string) : zones.SdnZoneBody :=
  zones.mkSdnZoneBody name None None None None None None None None None None
    None None None None None None None None None None None None None None None.

Definition untypedRecord : zones.SdnZoneBody := namedRecord "z1".

Definition faucetRecord : zones.SdnZoneBody :=
  zones.set_Type_ (Some "faucet") untypedRecord.

(** The variant blocks of a model. *)
Definition blocks (m : sdnZoneResourceModel) :=
  (Simple m, VLAN m, VXLAN m, QinQ m, EVPN m).

(** Clients for the examples: a server with three zones, listed out of
    order; a server without the zone asked for; a server that cannot be
    reached; and a server that answers without data. *)
Definition listingClient : zones.Client :=
  {| zones.DoRequestList := fun _ _ =>
       (None, {| zones.list_Data :=
                   Some [namedRecord "zb"; namedRecord "zc"; namedRecord "za"] |});
     zones.DoRequestGet := fun _ _ =>
       (None, {| zones.get_Data := Some faucetRecord |});
     zones.DoRequest := fun _ _ _ => None |}.

Definition notFound : error :=
  ErrRequest "received an HTTP 500 response - Reason: zone 'z1' does not exist".

Definition missingClient : zones.Client :=
  {| zones.DoRequestList := fun _ _ => (None, {| zones.list_Data := Some [] |});
     zones.DoRequestGet := fun _ _ => (Some notFound, {| zones.get_Data := None |});
     zones.DoRequest := fun _ _ _ => Some notFound |}.

Definition refused : error := ErrRequest "connection refused".

Definition brokenClient : zones.Client :=
  {| zones.DoRequestList := fun _ _ => (Some refused, {| zones.list_Data := None |});
     zones.DoRequestGet := fun _ _ => (Some refused, {| zones.get_Data := None |});
     zones.DoRequest := fun _ _ _ => Some refused |}.

Definition emptyClient : zones.Client :=
  {| zones.DoRequestList := fun _ _ => (None, {| zones.list_Data := None |});
     zones.DoRequestGet := fun _ _ => (None, {| zones.get_Data := None |});
     zones.DoRequest := fun _ _ _ => None |}.

(** A model that keeps its name only. *)
Definition name_only (m : sdnZoneResourceModel) : sdnZoneResourceModel :=
  {| Name := Name m;
     MTU := types.Null;
     Nodes := types.Null;
     IPAM := types.Null;
     DNS := types.Null;
     ReverseDNS := types.Null;
     DNSZone := types.Null;
     Simple := None;
     VLAN := None;
     VXLAN := None;
     QinQ := None;
     EVPN := None |}.

Definition is_warning (e : diag.Diagnostic) : Prop :=
  diag.severity e = diag.SeverityWarning.

(** Ascending order of the names of zone records. *)
Definition name_le (a b : zones.SdnZoneBody) : Prop :=
  (zones.Name a <=? zones.Name b)%string = true.

(** *** Vocabulary of the further properties *)

(** The block of variant [w] is the same in two models. *)
Definition same_block (w : variant) (m m' : sdnZoneResourceModel) : Prop :=
  match w with
  | VSimple => Simple m' = Simple m
  | VVlan => VLAN m' = VLAN m
  | VVxlan => VXLAN m' = VXLAN m
  | VQinQ => QinQ m' = QinQ m
  | VEvpn => EVPN m' = EVPN m
  end.

Definition variant_eqb (v w : variant) : bool :=
  (discriminant v =? discriminant w)%string.

Definition field_in (f : wire_field) (l : list wire_field) : bool :=
  existsb (fun g => (wire_name f =? wire_name g)%string) l.

(** A string field that is nil or holds a non-empty string. *)
Definition not_empty (p : option string) : bool :=
  match p with
  | Some s => negb (s =? "")%string
  | None => true
  end.

(** A wire record as the resource itself writes it for the zone type [v]:
    the type is that of [v], the fields of the other variants and the
    fields the resource does not use (delete, dp-id,
    bridge-disable-mac-learning) are nil, and no list field holds the
    empty string. *)
Definition normal_record (v : variant) (b : zones.SdnZoneBody) : bool :=
  match zones.Type_ b with
  | Some t => (t =? discriminant v)%string
  | None => false
  end
  && isNil (zones.Delete b) && isNil (zones.DpID b)
  && isNil (zones.BridgeDisableMacLearning b)
  && forallb (fun f => field_in f (variant_fields v) || is_nil b f)
       all_variant_fields
  && not_empty (zones.Nodes b) && not_empty (zones.Peers b)
  && not_empty (zones.Exitnodes b).

(** Whether the plan modifiers of the five blocks ask for a replacement
    of the resource, for the state and the plan of an update. *)
Definition replaceRequired (state plan : sdnZoneResourceModel) : bool :=
  existsb
    (fun v => recreatemodifier (negb (is_set state v)) (negb (is_set plan v)))
    priority.

(** A server that holds the record [b]: every request succeeds and [Get]
    answers with [b]. *)
Definition storingClient (b : zones.SdnZoneBody) : zones.Client :=
  {| zones.DoRequestList := fun _ _ => (None, {| zones.list_Data := Some [b] |});
     zones.DoRequestGet := fun _ _ => (None, {| zones.get_Data := Some b |});
     zones.DoRequest := fun _ _ _ => None |}.

(** The server of [listingClient] with its zones sent in another order. *)
Definition reorderedClient : zones.Client :=
  {| zones.DoRequestList := fun _ _ =>
       (None, {| zones.list_Data :=
                   Some [namedRecord "za"; namedRecord "zb"; namedRecord "zc"] |});
     zones.DoRequestGet := fun _ _ =>
       (None, {| zones.get_Data := Some faucetRecord |});
     zones.DoRequest := fun _ _ _ => None |}.

(** A complete vxlan record as the API sends it. *)
Definition vxlanRecord : zones.SdnZoneBody :=
  zones.set_VxlanPort (Some 4789%Z)
    (zones.set_Peers (Some "10.0.0.1,10.0.0.2")
       (zones.set_Type_ (Some "vxlan") (namedRecord "z2"))).

(** ** The definitions on small inputs *)

Example Join_abc : strings.Join ["a"; "b"; "c"] "," = "a,b,c".
Proof. reflexivity. Qed.

Example Split_abc : strings.Split "a,b,c" "," = ["a"; "b"; "c"].
Proof. reflexivity. Qed.

Example Split_edges :
  strings.Split "" "," = [""] /\ strings.Split ",a," "," = [""; "a"; ""].
Proof. split; reflexivity. Qed.

Example Contains_not_found :
  strings.Contains "error reading SDN zone: zone 'z1' does not exist"
    "does not exist" = true
  /\ strings.Contains "error reading SDN zone: timeout" "does not exist" = false.
Proof. split; reflexivity. Qed.

Example Slice_names :
  map zones.Name
    (zones.sort.Slice [namedRecord "zb"; namedRecord "zc"; namedRecord "za"]
       zones.less)
  = ["za"; "zb"; "zc"].
Proof. reflexivity. Qed.

(** The zone "z1" on the bridge "vmbr0" goes out with the type vlan. *)
Example vlan_record :
  let b := wireRecord vlanExample in
  zones.Name b = "z1" /\ zones.Type_ b = Some "vlan"
  /\ zones.Bridge b = Some "vmbr0" /\ zones.Ipam b = Some "pve"
  /\ zones.Mtu b = None.
Proof. repeat split. Qed.

(** Two blocks at once: the first in the order wins. *)
Example first_block_wins :
  zones.Type_ (wireRecord (set_Simple (Some (mkSimple types.Null)) vlanExample))
  = Some "simple".
Proof. reflexivity. Qed.

(** ** Strings *)

Lemma Split_comma_free (s : string) :
  comma_free s = true -> strings.Split s "," = [s].
Proof.
  induction s as [|c s IH]; simpl; [reflexivity|].
  intros H. apply andb_prop in H. destruct H as [Hc Hs].
  apply negb_true_iff in Hc. rewrite Hc, (IH Hs). reflexivity.
Qed.

Lemma Split_piece (s rest : string) :
  comma_free s = true ->
  strings.Split (s ++ String.String "," rest) "," = s :: strings.Split rest ",".
Proof.
  induction s as [|c s IH]; simpl; [reflexivity|].
  intros H. apply andb_prop in H. destruct H as [Hc Hs].
  apply negb_true_iff in Hc. rewrite Hc, (IH Hs). reflexivity.
Qed.

Lemma Split_Join (l : list string) :
  l <> [] -> forallb comma_free l = true ->
  strings.Split (strings.Join l ",") "," = l.
Proof.
  induction l as [|s l IH]; [congruence|].
  intros _ H. simpl in H. apply andb_prop in H. destruct H as [Hs Hl].
  destruct l as [|s' l].
  - simpl. apply Split_comma_free, Hs.
  - change (strings.Join (s :: s' :: l) ",")
      with (s ++ String.String "," (strings.Join (s' :: l) ",")).
    rewrite (Split_piece _ _ Hs), IH; [reflexivity|discriminate|exact Hl].
Qed.

Lemma append_empty (s t : string) : s ++ t = "" -> s = "".
Proof. destruct s; simpl; [reflexivity|discriminate]. Qed.

Lemma Join_empty (l : list string) :
  strings.Join l "," = "" -> l = [] \/ l = [""].
Proof.
  destruct l as [|s [|s' l]]; simpl; intros H.
  - now left.
  - right. now subst.
  - pose proof (append_empty _ _ H) as Hs. subst s. discriminate H.
Qed.

(** ** The list helpers *)

Lemma convertListToString_split (l : types.List) (d : diag.Diagnostics) :
  convertListToString l d = (listPointer l, d).
Proof. destruct l; reflexivity. Qed.

Lemma convertStringToList_diags (v : option string) (d : diag.Diagnostics) :
  convertStringToList v d = (fst (convertStringToList v []), d).
Proof.
  destruct v as [v|]; [|reflexivity].
  unfold convertStringToList. destruct (v =? "")%string; reflexivity.
Qed.

Lemma known_elements (es : list types.String) :
  forallb is_known es = true ->
  map types.StringValue (map types.ValueString es) = es.
Proof.
  induction es as [|e es IH]; simpl; [reflexivity|].
  intros H. apply andb_prop in H. destruct H as [He Hes].
  rewrite (IH Hes). destruct e; try discriminate. reflexivity.
Qed.

Lemma list_roundtrip (l : types.List) (d : diag.Diagnostics) :
  comma_safe l = true -> convertStringToList (listPointer l) d = (l, d).
Proof.
  destruct l as [| |es]; try discriminate. simpl.
  intros H. apply andb_prop in H. destruct H as [H Hne].
  apply andb_prop in H. destruct H as [Hk Hc].
  assert (Hc' : forallb comma_free (map types.ValueString es) = true).
  { rewrite forallb_forall in *. intros s Hs. apply in_map_iff in Hs.
    destruct Hs as [e [<- He]]. now apply Hc. }
  assert (Hnil : map types.ValueString es <> []).
  { destruct es; [discriminate Hne|discriminate]. }
  unfold listPointer, convertStringToList. simpl.
  destruct (strings.Join (map types.ValueString es) "," =? "")%string eqn:E.
  - apply String.eqb_eq in E. apply Join_empty in E. destruct E as [E|E].
    + contradiction.
    + destruct es as [|e [|e' es]]; try discriminate.
      simpl in E. injection E as E. rewrite E in Hne. discriminate.
  - unfold types.ListValueFrom. simpl.
    rewrite (Split_Join _ Hnil Hc'), (known_elements _ Hk). reflexivity.
Qed.

(** ** The wire record of a model *)

Lemma exportToSdnZoneBody_split (m : sdnZoneResourceModel) (d : diag.Diagnostics) :
  exportToSdnZoneBody m d = (wireRecord m, d).
Proof.
  unfold wireRecord, exportToSdnZoneBody.
  rewrite !(convertListToString_split (Nodes m)).
  destruct (Simple m); [reflexivity|].
  destruct (VLAN m); [reflexivity|].
  destruct (VXLAN m) as [x|].
  { rewrite !(convertListToString_split (vxlan_Peers x)). reflexivity. }
  destruct (QinQ m); [reflexivity|].
  destruct (EVPN m) as [e|]; [|reflexivity].
  rewrite !(convertListToString_split (evpn_Exitnodes e)). reflexivity.
Qed.

Lemma exactly_one_cases (m : sdnZoneResourceModel) :
  exactly_one m ->
  (exists s, Simple m = Some s /\ VLAN m = None /\ VXLAN m = None
             /\ QinQ m = None /\ EVPN m = None)
  \/ (exists s, Simple m = None /\ VLAN m = Some s /\ VXLAN m = None
                /\ QinQ m = None /\ EVPN m = None)
  \/ (exists s, Simple m = None /\ VLAN m = None /\ VXLAN m = Some s
                /\ QinQ m = None /\ EVPN m = None)
  \/ (exists s, Simple m = None /\ VLAN m = None /\ VXLAN m = None
                /\ QinQ m = Some s /\ EVPN m = None)
  \/ (exists s, Simple m = None /\ VLAN m = None /\ VXLAN m = None
                /\ QinQ m = None /\ EVPN m = Some s).
Proof.
  unfold exactly_one. destruct m as [? ? ? ? ? ? ? s v x q e]. simpl.
  destruct s, v, x, q, e; simpl; try discriminate; intros _.
  - left. eauto 6.
  - right; left. eauto 6.
  - do 2 right; left. eauto 6.
  - do 3 right; left. eauto 6.
  - do 4 right. eauto 6.
Qed.

(** ** Round trip between the model and the wire record *)

Ltac split_andb :=
  repeat match goal with
         | H : (_ && _)%bool = true |- _ =>
             apply andb_prop in H; destruct H
         end.

Ltac known_fields :=
  repeat match goal with
         | H : is_known ?x = true |- _ =>
             destruct x; try discriminate H; clear H
         end.

Ltac open_blocks :=
  repeat match goal with
         | b : sdnZoneSimpleModel |- _ => destruct b
         | b : sdnZoneVlanModel |- _ => destruct b
         | b : sdnZoneVxlanModel |- _ => destruct b
         | b : sdnZoneQinQModel |- _ => destruct b
         | b : sdnZoneEvpnModel |- _ => destruct b
         end.

Ltac one_variant m H :=
  destruct (exactly_one_cases m H)
    as [[? [? [? [? [? ?]]]]]
       |[[? [? [? [? [? ?]]]]]
       |[[? [? [? [? [? ?]]]]]
       |[[? [? [? [? [? ?]]]]]
       |[? [? [? [? [? ?]]]]]]]]].

Lemma import_export (target m : sdnZoneResourceModel) (d : diag.Diagnostics) :
  exactly_one m ->
  all_populated m = true ->
  lists_comma_safe m = true ->
  (forall v, is_set m v = false -> is_set target v = false) ->
  roundtrip target m d = Ok (m, d).
Proof.
  intros Hone Hpop Hsafe Htarget.
  unfold roundtrip. rewrite exportToSdnZoneBody_split.
  assert (Hs := Htarget VSimple). assert (Hv := Htarget VVlan).
  assert (Hx := Htarget VVxlan). assert (Hq := Htarget VQinQ).
  assert (He := Htarget VEvpn). clear Htarget.
  destruct target as [? ? ? ? ? ? ? ts tv tx tq te].
  destruct m as [name mtu nodes ipam dns rdns zone s v x q e].
  one_variant (mkModel name mtu nodes ipam dns rdns zone s v x q e) Hone;
    simpl in *; subst; open_blocks; simpl in *;
    unfold all_populated, lists_comma_safe in *; simpl in *; split_andb;
    known_fields;
    repeat match goal with
           | H : false = false -> _ |- _ => specialize (H eq_refl)
           | H : negb (isNil ?t) = false |- _ =>
               destruct t; try discriminate H; clear H
           end;
    unfold wireRecord, exportToSdnZoneBody, importFromSdnZoneBody;
    repeat (rewrite ?convertListToString_split;
            progress cbn -[listPointer convertStringToList]);
    repeat match goal with
           | H : comma_safe ?l = true |- _ =>
               rewrite (list_roundtrip l _ H); clear H
           end;
    reflexivity.
Qed.

(** C1 (as amended). For every configuration in which exactly one of the
    five variant blocks is populated, all fields are populated, and every
    list attribute survives the comma-separated encoding (it is not empty,
    no element holds a comma, and it is not the list of one empty string),
    exporting the configuration with [exportToSdnZoneBody] and importing
    the record with [importFromSdnZoneBody], into a fresh model or into the
    configuration itself, yields the original configuration and leaves the
    diagnostics as they were. *)
Theorem roundtrip_identity (m : sdnZoneResourceModel) (d : diag.Diagnostics) :
  exactly_one m ->
  all_populated m = true ->
  lists_comma_safe m = true ->
  roundtrip zeroModel m d = Ok (m, d) /\ roundtrip m m d = Ok (m, d).
Proof.
  intros Hone Hpop Hsafe. split; apply import_export; auto.
  intros [] _; reflexivity.
Qed.

Lemma roundtrip_identity_witness :
  roundtrip zeroModel evpnExample [] = Ok (evpnExample, [])
  /\ roundtrip evpnExample evpnExample [] = Ok (evpnExample, []).
Proof.
  apply (roundtrip_identity evpnExample []); reflexivity.
Defined.

(** C1 fails as stated: the configuration [commaExample] has exactly one
    variant block and all its fields populated, and comes back from the
    wire record with the two nodes "a" and "b". *)
Lemma roundtrip_not_identity :
  exactly_one commaExample
  /\ all_populated commaExample = true
  /\ roundtrip zeroModel commaExample [] <> Ok (commaExample, [])
  /\ roundtrip commaExample commaExample [] <> Ok (commaExample, []).
Proof.
  repeat split; try reflexivity; vm_compute; intros H; discriminate H.
Qed.

(** ** Lists and comma-separated strings *)

(** C3 (as amended). [convertListToString] maps the list "a", "b", "c" to
    the string "a,b,c" and [convertStringToList] maps that string back; a
    null or unknown list is mapped to the nil string, while an empty list
    is mapped to the empty string (not to nil); a nil or empty string is
    mapped back to the null list. *)
Theorem convert_list_string (d : diag.Diagnostics) :
  convertListToString
    (types.Known [types.Known "a"; types.Known "b"; types.Known "c"]) d
    = (Some "a,b,c", d)
  /\ convertStringToList (Some "a,b,c") d
     = (types.Known [types.Known "a"; types.Known "b"; types.Known "c"], d)
  /\ convertListToString types.Null d = (None, d)
  /\ convertListToString types.Unknown d = (None, d)
  /\ convertListToString (types.Known []) d = (Some "", d)
  /\ convertStringToList None d = (types.ListNull, d)
  /\ convertStringToList (Some "") d = (types.ListNull, d).
Proof. repeat split. Qed.

(** C3 fails as stated: the empty list is not mapped to the nil string. *)
Lemma empty_list_not_nil :
  fst (convertListToString (types.Known []) []) <> None.
Proof. discriminate. Qed.

(** ** The type of the wire record *)

Ltac reduce_export :=
  unfold wireRecord, exportToSdnZoneBody;
  repeat (rewrite ?convertListToString_split; progress cbn -[listPointer]).

Ltac other_fields f Hin Hnot :=
  destruct f; try reflexivity; exfalso;
  solve [ apply Hnot; simpl; tauto | simpl in Hin; intuition discriminate ].

Lemma Join_concat (l : list string) (sep : string) :
  strings.Join l sep = String.concat sep l.
Proof.
  induction l as [|x l IH]; [reflexivity|].
  destruct l as [|y l]; [reflexivity|].
  change (strings.Join (x :: y :: l) sep)
    with (x ++ sep ++ strings.Join (y :: l) sep).
  now rewrite IH.
Qed.

Lemma listPointer_wireList (l : types.List) : listPointer l = wireList l.
Proof.
  destruct l as [| |elements]; try reflexivity.
  unfold listPointer. simpl. now rewrite Join_concat.
Qed.

Lemma wireRecord_first (m : sdnZoneResourceModel) (v : variant) :
  first_variant m = Some v ->
  zones.Type_ (wireRecord m) = Some (discriminant v)
  /\ variant_copied m v (wireRecord m)
  /\ (forall f, In f all_variant_fields -> ~ In f (variant_fields v) ->
                is_nil (wireRecord m) f = true).
Proof.
  destruct m as [name mtu nodes ipam dns rdns zone s vl x q e].
  unfold first_variant.
  destruct s as [s|]; [|destruct vl as [vl|]; [|destruct x as [x|];
    [|destruct q as [q|]; [|destruct e as [e|]]]]];
    simpl; intros H; try discriminate H; injection H as <-;
    (split; [reduce_export; reflexivity|]);
    (split; [simpl; eexists; split; [reflexivity|];
             reduce_export; repeat split;
             try apply listPointer_wireList|]);
    intros f Hin Hnot; reduce_export; other_fields f Hin Hnot.
Qed.

Lemma wireRecord_none (m : sdnZoneResourceModel) :
  first_variant m = None ->
  zones.Type_ (wireRecord m) = Some ""
  /\ (forall f, In f all_variant_fields -> is_nil (wireRecord m) f = true).
Proof.
  destruct m as [name mtu nodes ipam dns rdns zone s vl x q e].
  unfold first_variant.
  destruct s, vl, x, q, e; simpl; intros H; try discriminate H.
  split; [reduce_export; reflexivity|].
  intros f Hin; reduce_export.
  destruct f; try reflexivity; exfalso; simpl in Hin; intuition discriminate.
Qed.

Lemma exactly_one_first (m : sdnZoneResourceModel) (v : variant) :
  exactly_one m -> is_set m v = true -> first_variant m = Some v.
Proof.
  intros Hone. unfold first_variant.
  one_variant m Hone; destruct m; simpl in *; subst;
    destruct v; simpl; intros H; try discriminate H; reflexivity.
Qed.

(** C5. For every configuration, [exportToSdnZoneBody] sets the type of
    the wire record to the discriminant of the first non-nil variant block
    in the order simple, vlan, vxlan, qinq, evpn, copies the fields of that
    block into the corresponding wire fields (a scalar as a pointer to its
    value, a list as the comma-joined strings of its elements), and leaves
    the wire fields of the other variants nil; a configuration without any block gets the
    empty type; when exactly one block is populated, the type is the
    discriminant of that block. *)
Theorem export_type_priority (m : sdnZoneResourceModel) (d : diag.Diagnostics) :
  let b := fst (exportToSdnZoneBody m d) in
  (forall v, first_variant m = Some v ->
     zones.Type_ b = Some (discriminant v)
     /\ variant_copied m v b
     /\ (forall f, In f all_variant_fields -> ~ In f (variant_fields v) ->
                   is_nil b f = true))
  /\ (first_variant m = None ->
      zones.Type_ b = Some ""
      /\ (forall f, In f all_variant_fields -> is_nil b f = true))
  /\ (exactly_one m -> forall v, is_set m v = true ->
        first_variant m = Some v /\ zones.Type_ b = Some (discriminant v)).
Proof.
  rewrite exportToSdnZoneBody_split. simpl. split; [|split].
  - apply wireRecord_first.
  - apply wireRecord_none.
  - intros Hone v Hv. pose proof (exactly_one_first m v Hone Hv) as Hf.
    split; [exact Hf|]. now apply wireRecord_first.
Qed.

Lemma export_type_priority_witness :
  (first_variant vxlanExample = Some VVxlan
   /\ zones.Type_ (fst (exportToSdnZoneBody vxlanExample [])) = Some "vxlan")
  /\ zones.Peers (fst (exportToSdnZoneBody vxlanExample []))
     = Some "10.0.0.1,10.0.0.2"
  /\ zones.VxlanPort (fst (exportToSdnZoneBody vxlanExample [])) = Some 4789%Z
  /\ zones.Exitnodes (fst (exportToSdnZoneBody vxlanExample [])) = None.
Proof.
  split.
  - apply (proj2 (proj2 (export_type_priority vxlanExample [])));
      reflexivity.
  - destruct (proj1 (export_type_priority vxlanExample []) VVxlan eq_refl)
      as [_ [[s [Hs [Hpeers Hport]]] Hother]].
    injection Hs as <-. split; [exact Hpeers|]. split; [exact Hport|].
    assert (Hnil : is_nil (fst (exportToSdnZoneBody vxlanExample []))
                     FExitnodes = true).
    { apply Hother.
      - simpl. do 9 right. left. reflexivity.
      - simpl. intros [H|[H|[]]]; discriminate H. }
    unfold is_nil in Hnil.
    destruct (zones.Exitnodes (fst (exportToSdnZoneBody vxlanExample [])));
      [discriminate Hnil|reflexivity].
Defined.

(** ** The update body *)

Lemma wireRecord_Delete (m : sdnZoneResourceModel) :
  zones.Delete (wireRecord m) = None.
Proof.
  destruct m as [name mtu nodes ipam dns rdns zone s vl x q e].
  destruct s, vl, x, q, e; reduce_export; reflexivity.
Qed.

Lemma appendIfNil_app {A : Type} (p : option A) (name : string)
    (deleteTab : list string) :
  appendIfNil p name deleteTab
  = (deleteTab ++ (if isNil p then [name] else []))%list.
Proof. destruct p; simpl; [now rewrite app_nil_r|reflexivity]. Qed.

Lemma names_cons (P : wire_field -> bool) (f : wire_field)
    (l : list wire_field) :
  map wire_name (filter P (f :: l))
  = ((if P f then [wire_name f] else []) ++ map wire_name (filter P l))%list.
Proof. simpl. destruct (P f); reflexivity. Qed.

Lemma wire_names_comma_free (fs : list wire_field) :
  forallb comma_free (map wire_name fs) = true.
Proof.
  induction fs as [|f fs IH]; simpl; [reflexivity|].
  rewrite IH, andb_true_r. destruct f; reflexivity.
Qed.

(** The update body computed from the wire record [rec] of type [v]. *)
Lemma exportToUpdateBody_record (m : sdnZoneResourceModel)
    (d : diag.Diagnostics) (v : variant) :
  zones.Type_ (wireRecord m) = Some (discriminant v) ->
  let names := map wire_name (filter (is_nil (wireRecord m)) (applicable v)) in
  exportToUpdateBody m d
  = Ok (zones.set_Type_ None
          match names with
          | [] => wireRecord m
          | _ :: _ =>
              zones.set_Delete (Some (strings.Join names ",")) (wireRecord m)
          end, d).
Proof.
  intros HT names. unfold exportToUpdateBody.
  rewrite exportToSdnZoneBody_split. cbv beta iota zeta.
  rewrite HT. unfold deref, bind.
  assert (E : forall (t : list string) (b : zones.SdnZoneBody),
             t = names ->
             Ok (zones.set_Type_ None
                   match t with
                   | [] => b
                   | _ :: _ => zones.set_Delete (Some (strings.Join t ",")) b
                   end, d)
             = Ok (zones.set_Type_ None
                     match names with
                     | [] => b
                     | _ :: _ =>
                         zones.set_Delete (Some (strings.Join names ",")) b
                     end, d)).
  { intros t b ->. reflexivity. }
  apply E. subst names. unfold applicable, base_fields.
  destruct v; cbn [discriminant String.eqb Ascii.eqb Bool.eqb variant_fields app];
    rewrite !appendIfNil_app, !names_cons;
    cbn [filter map is_nil wire_name];
    rewrite <- ?app_assoc, ?app_nil_r; reflexivity.
Qed.

Lemma delete_list_names (b : zones.SdnZoneBody) (fs : list wire_field) :
  zones.Delete b
  = match fs with
    | [] => None
    | _ :: _ => Some (strings.Join (map wire_name fs) ",")
    end ->
  delete_list b = map wire_name fs.
Proof.
  unfold delete_list. intros ->. destruct fs as [|f fs]; [reflexivity|].
  apply Split_Join; [discriminate|apply wire_names_comma_free].
Qed.

(** C2. For every configuration with exactly one variant block populated,
    the update body of [exportToUpdateBody] has a nil type, and its delete
    field is the comma-joined list of the wire names of exactly those
    fields that are nil in the record of [exportToSdnZoneBody] and apply to
    the zone type (the base fields mtu, nodes, ipam, dns, reversedns,
    dnszone and the fields of the populated variant); the field is nil
    when there is no such field. The other fields of the update body are
    those of the record. *)
Theorem update_body_delete_list (m : sdnZoneResourceModel)
    (d : diag.Diagnostics) (v : variant) :
  exactly_one m ->
  is_set m v = true ->
  let record := fst (exportToSdnZoneBody m d) in
  let fields := filter (is_nil record) (applicable v) in
  exists b,
    exportToUpdateBody m d = Ok (b, d)
    /\ zones.Type_ b = None
    /\ zones.Delete b
       = match fields with
         | [] => None
         | _ :: _ => Some (strings.Join (map wire_name fields) ",")
         end
    /\ (forall w, In w (delete_list b) <->
                  exists f, In f (applicable v)
                            /\ is_nil record f = true /\ wire_name f = w)
    /\ (forall f, is_nil b f = is_nil record f).
Proof.
  intros Hone Hv. rewrite exportToSdnZoneBody_split. simpl.
  pose proof (exactly_one_first m v Hone Hv) as Hf.
  destruct (wireRecord_first m v Hf) as [HT _].
  rewrite (exportToUpdateBody_record m d v HT).
  pose proof (wireRecord_Delete m) as HD.
  set (record := wireRecord m) in *.
  set (fields := filter (is_nil record) (applicable v)).
  eexists. split; [reflexivity|].
  assert (Hdel :
    zones.Delete
      (zones.set_Type_ None
         match map wire_name fields with
         | [] => record
         | _ :: _ =>
             zones.set_Delete
               (Some (strings.Join (map wire_name fields) ",")) record
         end)
    = match fields with
      | [] => None
      | _ :: _ => Some (strings.Join (map wire_name fields) ",")
      end).
  { destruct fields; simpl; [exact HD|reflexivity]. }
  split; [destruct (map wire_name fields); reflexivity|].
  split; [exact Hdel|]. split.
  - intros w. rewrite (delete_list_names _ fields Hdel), in_map_iff.
    subst fields. split.
    + intros [f [Hw Hin]]. apply filter_In in Hin. destruct Hin as [Hin Hnil].
      exists f. repeat split; assumption.
    + intros [f [Hin [Hnil Hw]]]. exists f. split; [exact Hw|].
      apply filter_In. split; assumption.
  - intros f. destruct (map wire_name fields); destruct f; reflexivity.
Qed.

Lemma update_body_delete_list_witness :
  exists b,
    exportToUpdateBody vlanExample [] = Ok (b, [])
    /\ zones.Type_ b = None
    /\ zones.Delete b = Some "mtu,nodes,dns,reversedns,dnszone"
    /\ (forall w, In w (delete_list b) <->
                  exists f, In f (applicable VVlan)
                            /\ is_nil (wireRecord vlanExample) f = true
                            /\ wire_name f = w)
    /\ (forall f, is_nil b f = is_nil (wireRecord vlanExample) f).
Proof.
  apply (update_body_delete_list vlanExample [] VVlan); reflexivity.
Defined.

(** ** Diagnostics *)

Lemma Equal_eq (a b : diag.Diagnostic) : diag.Equal a b = true -> a = b.
Proof.
  destruct a as [sa ua da], b as [sb ub db]. unfold diag.Equal. simpl.
  intros H. apply andb_prop in H. destruct H as [H Hd].
  apply andb_prop in H. destruct H as [Hs Hu].
  apply String.eqb_eq in Hd, Hu. subst.
  destruct sa, sb; try discriminate Hs; reflexivity.
Qed.

Lemma In_Append1 (d : diag.Diagnostics) (e : diag.Diagnostic) :
  In e (diag.Append1 d e).
Proof.
  unfold diag.Append1, diag.ContainsDiag.
  destruct (existsb (diag.Equal e) d) eqn:E.
  - apply existsb_exists in E. destruct E as [x [Hx Heq]].
    apply Equal_eq in Heq. now subst.
  - apply in_or_app. right. now left.
Qed.

Lemma HasError_Append1 (d : diag.Diagnostics) (e : diag.Diagnostic) :
  diag.HasError (diag.Append1 d e)
  = (diag.HasError d || diag.Severity_eqb (diag.severity e) diag.SeverityError)%bool.
Proof.
  unfold diag.Append1, diag.ContainsDiag, diag.HasError.
  destruct (existsb (diag.Equal e) d) eqn:E.
  - apply existsb_exists in E. destruct E as [x [Hx Heq]].
    apply Equal_eq in Heq. subst x.
    destruct (diag.Severity_eqb (diag.severity e) diag.SeverityError) eqn:S.
    + rewrite orb_true_r. apply existsb_exists. now exists e.
    + now rewrite orb_false_r.
  - rewrite existsb_app. simpl. now rewrite orb_false_r.
Qed.

Lemma HasError_AddError (d : diag.Diagnostics) (s t : string) :
  diag.HasError (diag.AddError d s t) = true.
Proof. unfold diag.AddError. rewrite HasError_Append1. apply orb_true_r. Qed.

Lemma HasError_AddWarning (d : diag.Diagnostics) (s t : string) :
  diag.HasError (diag.AddWarning d s t) = diag.HasError d.
Proof. unfold diag.AddWarning. rewrite HasError_Append1. apply orb_false_r. Qed.

(** ** Importing a wire record *)

(** C8. For every wire record whose type string is not one of simple,
    vlan, vxlan, qinq, evpn, [importFromSdnZoneBody] returns with the error
    diagnostic "Invalid SDN Zone Type" added, so that the diagnostics of
    the caller have an error, and it sets no variant block: the blocks of
    the model are those it had before, none for a fresh model. *)
Theorem import_unrecognized_type (m : sdnZoneResourceModel)
    (body : zones.SdnZoneBody) (d : diag.Diagnostics) (t : string) :
  zones.Type_ body = Some t ->
  ~ In t (map discriminant priority) ->
  exists m' d',
    importFromSdnZoneBody m body d = Ok (m', d')
    /\ d' = diag.AddError d "Invalid SDN Zone Type"
              ("SDN Zone type is not recognized: " ++ t)
    /\ In (diag.mkDiagnostic diag.SeverityError "Invalid SDN Zone Type"
             ("SDN Zone type is not recognized: " ++ t)) d'
    /\ diag.HasError d' = true
    /\ blocks m' = blocks m
    /\ (blocks m = blocks zeroModel -> forall v, is_set m' v = false).
Proof.
  intros HT Hnot. unfold importFromSdnZoneBody.
  rewrite convertStringToList_diags, HT. cbv beta iota zeta. unfold deref, bind.
  assert (Hne : forall v, (t =? discriminant v)%string = false).
  { intros v. apply String.eqb_neq. intros ->. apply Hnot.
    apply in_map. destruct v; simpl; tauto. }
  pose proof (Hne VSimple) as H1. pose proof (Hne VVlan) as H2.
  pose proof (Hne VVxlan) as H3. pose proof (Hne VQinQ) as H4.
  pose proof (Hne VEvpn) as H5. simpl in H1, H2, H3, H4, H5.
  rewrite H1, H2, H3, H4, H5.
  eexists. eexists. split; [reflexivity|]. split; [reflexivity|].
  split; [apply In_Append1|]. split; [apply HasError_AddError|].
  split; [reflexivity|].
  unfold blocks. simpl. intros E v. injection E as -> -> -> -> ->.
  destruct v; reflexivity.
Qed.

Lemma import_unrecognized_type_witness :
  exists m' d',
    importFromSdnZoneBody zeroModel faucetRecord [] = Ok (m', d')
    /\ d' = diag.AddError [] "Invalid SDN Zone Type"
              "SDN Zone type is not recognized: faucet"
    /\ In (diag.mkDiagnostic diag.SeverityError "Invalid SDN Zone Type"
             "SDN Zone type is not recognized: faucet") d'
    /\ diag.HasError d' = true
    /\ blocks m' = blocks zeroModel
    /\ (blocks zeroModel = blocks zeroModel -> forall v, is_set m' v = false).
Proof.
  apply (import_unrecognized_type zeroModel faucetRecord [] "faucet").
  - reflexivity.
  - simpl. intros H. repeat destruct H as [H|H]; try discriminate H. exact H.
Defined.

(** C6, at the record without type. [importFromSdnZoneBody] dereferences
    the type of the record: on every record whose type is nil, such as the
    record [untypedRecord], it panics instead of returning diagnostics. On
    every record with a type it returns, and [exportToSdnZoneBody] and
    [exportToUpdateBody] return on every configuration. *)
Theorem import_without_type_panics :
  importFromSdnZoneBody zeroModel untypedRecord []
  = Panic "invalid memory address or nil pointer dereference"
  /\ (forall m body d,
        importFromSdnZoneBody m (zones.set_Type_ None body) d
        = Panic "invalid memory address or nil pointer dereference")
  /\ (forall m body t d,
        exists r, importFromSdnZoneBody m (zones.set_Type_ (Some t) body) d = Ok r)
  /\ (forall m d, exists b, exportToUpdateBody m d = Ok (b, d)).
Proof.
  split; [reflexivity|]. split; [|split].
  - intros m body d. unfold importFromSdnZoneBody.
    rewrite convertStringToList_diags. reflexivity.
  - intros m body t d. unfold importFromSdnZoneBody.
    rewrite convertStringToList_diags. cbv beta iota zeta.
    change (zones.Type_ (zones.set_Type_ (Some t) body)) with (Some t).
    unfold deref, bind.
    repeat match goal with
           | |- context [if ?c then _ else _] => destruct c
           end;
      rewrite ?(convertStringToList_diags _ d); eexists; reflexivity.
  - intros m d. unfold exportToUpdateBody.
    rewrite exportToSdnZoneBody_split. cbv beta iota zeta.
    destruct (first_variant m) as [v|] eqn:E.
    + destruct (wireRecord_first m v E) as [-> _]. eexists. reflexivity.
    + destruct (wireRecord_none m E) as [-> _]. eexists. reflexivity.
Qed.

(** ** The schema *)

(** C7, on the schema as it is. The evpn block of the schema declares the
    key vfr_vxlan where the model's field [VrfVxlan] carries the tag
    vrf_vxlan: the keys of the block are not the tags of the model, and no
    attribute is keyed vrf_vxlan. *)
Theorem evpn_schema_key_mismatch :
  blockAttributes "evpn"
  = [ "controller"; "vfr_vxlan"; "mac"; "exitnodes"; "exitnodes_primary";
      "exitnodes_local_routing"; "advertise_subnets";
      "disable_arp_nd_suppression"; "rt_import" ]
  /\ ~ In "vrf_vxlan" (blockAttributes "evpn")
  /\ In "vrf_vxlan" sdnZoneEvpnModel_tfsdk
  /\ blockAttributes "evpn" <> sdnZoneEvpnModel_tfsdk.
Proof.
  split; [reflexivity|]. split; [|split].
  - simpl. intros H. repeat destruct H as [H|H]; try discriminate H. exact H.
  - simpl. tauto.
  - discriminate.
Qed.

(** ** Order of strings *)

Lemma ascii_compare_trans (x y z : ascii) (r : comparison) :
  Ascii.compare x y = r -> Ascii.compare y z = r -> Ascii.compare x z = r.
Proof.
  unfold Ascii.compare.
  destruct (N.compare_spec (N_of_ascii x) (N_of_ascii y)) as [E|L|G];
    intros <-; intros H.
  - now rewrite E.
  - apply N.compare_lt_iff in H. apply N.compare_lt_iff.
    eapply N.lt_trans; eassumption.
  - apply N.compare_gt_iff in H. apply N.compare_gt_iff.
    eapply N.lt_trans; eassumption.
Qed.

Lemma string_leb_trans (a b c : string) :
  (a <=? b)%string = true -> (b <=? c)%string = true -> (a <=? c)%string = true.
Proof.
  unfold String.leb. revert b c.
  induction a as [|x a IH]; intros [|y b] [|z c]; simpl; try easy.
  destruct (Ascii.compare x y) eqn:Exy; try easy;
    destruct (Ascii.compare y z) eqn:Eyz; try easy; intros Hab Hbc.
  - rewrite (ascii_compare_trans x y z Eq Exy Eyz). now apply (IH b c).
  - apply Ascii.compare_eq_iff in Exy. subst. now rewrite Eyz.
  - apply Ascii.compare_eq_iff in Eyz. subst. now rewrite Exy.
  - now rewrite (ascii_compare_trans x y z Lt Exy Eyz).
Qed.

Lemma ltb_false_leb (a b : string) :
  (a <? b)%string = false <-> (b <=? a)%string = true.
Proof.
  unfold String.ltb, String.leb. rewrite (String.compare_antisym b a).
  destruct (String.compare a b); simpl; split; congruence.
Qed.

Lemma ltb_true_leb (a b : string) :
  (a <? b)%string = true -> (a <=? b)%string = true.
Proof.
  unfold String.ltb, String.leb. destruct (String.compare a b); congruence.
Qed.

(** ** Sorting the list of zones *)

Lemma insert_perm (x : zones.SdnZoneBody) (l : list zones.SdnZoneBody) :
  Permutation (x :: l) (zones.sort.insert zones.less x l).
Proof.
  induction l as [|y l IH]; simpl; [reflexivity|].
  destruct (zones.less x y); [reflexivity|].
  rewrite perm_swap. now constructor.
Qed.

Lemma insert_sorted (x : zones.SdnZoneBody) (l : list zones.SdnZoneBody) :
  StronglySorted name_le l ->
  StronglySorted name_le (zones.sort.insert zones.less x l).
Proof.
  induction 1 as [|y l Hl IH Hy]; simpl.
  - repeat constructor.
  - unfold zones.less. destruct (zones.Name x <? zones.Name y)%string eqn:E.
    + apply ltb_true_leb in E. constructor; [now constructor|].
      constructor; [exact E|].
      eapply Forall_impl; [|exact Hy]. intros z Hz.
      unfold name_le in *. eapply string_leb_trans; eassumption.
    + apply ltb_false_leb in E. constructor; [exact IH|].
      eapply Permutation_Forall; [apply insert_perm|].
      constructor; assumption.
Qed.

Lemma Slice_from (l acc : list zones.SdnZoneBody) :
  StronglySorted name_le acc ->
  let r := fold_left (fun sorted e => zones.sort.insert zones.less e sorted) l acc in
  StronglySorted name_le r /\ Permutation (acc ++ l) r.
Proof.
  revert acc. induction l as [|x l IH]; simpl; intros acc Hacc.
  - split; [exact Hacc|]. now rewrite app_nil_r.
  - destruct (IH _ (insert_sorted x acc Hacc)) as [Hs Hp]. split; [exact Hs|].
    rewrite <- Hp, <- Permutation_middle.
    apply (Permutation_app_tail l (insert_perm x acc)).
Qed.

Lemma Slice_sorted (data : list zones.SdnZoneBody) :
  StronglySorted name_le (zones.sort.Slice data zones.less)
  /\ Permutation data (zones.sort.Slice data zones.less).
Proof. apply (Slice_from data []). constructor. Qed.

(** C9. For every successful [List] call, the returned zone records are
    the records of the server response, whatever their order there, sorted
    in ascending order of the name. *)
Theorem List_sorted_by_name (c : zones.Client)
    (r : option (list zones.SdnZoneBody)) :
  zones.List c = (r, None) ->
  exists records data,
    r = Some records
    /\ zones.list_Data
         (snd (zones.DoRequestList c zones.MethodGet (zones.ExpandPath "")))
       = Some data
    /\ Permutation data records
    /\ StronglySorted name_le records.
Proof.
  unfold zones.List.
  destruct (zones.DoRequestList c zones.MethodGet (zones.ExpandPath ""))
    as [[err|] [[data|]]]; simpl; intros H; try discriminate H.
  injection H as <-. exists (zones.sort.Slice data zones.less), data.
  destruct (Slice_sorted data) as [Hs Hp]. repeat split; assumption.
Qed.

Lemma List_sorted_by_name_witness :
  exists records data,
    Some [namedRecord "za"; namedRecord "zb"; namedRecord "zc"] = Some records
    /\ Some [namedRecord "zb"; namedRecord "zc"; namedRecord "za"] = Some data
    /\ Permutation data records
    /\ StronglySorted name_le records.
Proof.
  apply (List_sorted_by_name listingClient). reflexivity.
Defined.

(** ** Failures of the transport client *)

(** C10. [List] and [Get] fail with the no-data error exactly when the
    request succeeds and the data field of the response is nil; when the
    data field is present they return it ([List] in ascending order of the
    names), and when the request fails they return the error of the
    request, wrapped. *)
Theorem no_data_error (PathEscape : string -> string) (c : zones.Client)
    (zone : string) :
  let listing := zones.DoRequestList c zones.MethodGet (zones.ExpandPath "") in
  let getting :=
    zones.DoRequestGet c zones.MethodGet (zones.ExpandPath (PathEscape zone)) in
  (snd (zones.List c) = Some ErrNoDataObjectInResponse
   <-> fst listing = None /\ zones.list_Data (snd listing) = None)
  /\ (forall data,
        fst listing = None -> zones.list_Data (snd listing) = Some data ->
        exists records,
          zones.List c = (Some records, None)
          /\ Permutation data records /\ StronglySorted name_le records)
  /\ (forall err,
        fst listing = Some err ->
        zones.List c = (None, Some (Errorf "error listing SDN zones" err)))
  /\ (snd (zones.Get PathEscape c zone) = Some ErrNoDataObjectInResponse
      <-> fst getting = None /\ zones.get_Data (snd getting) = None)
  /\ (forall data,
        fst getting = None -> zones.get_Data (snd getting) = Some data ->
        zones.Get PathEscape c zone = (Some data, None))
  /\ (forall err,
        fst getting = Some err ->
        zones.Get PathEscape c zone
        = (None, Some (Errorf "error reading SDN zone" err))).
Proof.
  unfold zones.List, zones.Get.
  destruct (zones.DoRequestList c zones.MethodGet (zones.ExpandPath ""))
    as [[lerr|] [[ldata|]]];
    destruct (zones.DoRequestGet c zones.MethodGet
                (zones.ExpandPath (PathEscape zone)))
      as [[gerr|] [[gdata|]]];
    simpl; repeat split;
    try solve [ intuition congruence
              | intros data H1 H2; congruence
              | intros err H; congruence ];
    intros data _ H; injection H as <-;
    exists (zones.sort.Slice ldata zones.less);
    destruct (Slice_sorted ldata); repeat split; assumption.
Qed.

Lemma no_data_error_witness :
  snd (zones.List emptyClient) = Some ErrNoDataObjectInResponse
  /\ snd (zones.Get (fun s => s) emptyClient "z1")
     = Some ErrNoDataObjectInResponse
  /\ zones.Get (fun s => s) listingClient "z1" = (Some faucetRecord, None)
  /\ zones.List brokenClient
     = (None, Some (Errorf "error listing SDN zones" refused)).
Proof.
  split; [|split; [|split]].
  - apply (proj1 (no_data_error (fun s => s) emptyClient "z1")).
    split; reflexivity.
  - apply (proj1 (proj2 (proj2 (proj2
             (no_data_error (fun s => s) emptyClient "z1"))))).
    split; reflexivity.
  - apply (proj1 (proj2 (proj2 (proj2 (proj2
             (no_data_error (fun s => s) listingClient "z1"))))));
      reflexivity.
  - apply (proj1 (proj2 (proj2 (no_data_error (fun s => s) brokenClient "z1"))));
      reflexivity.
Defined.

(** ** A zone that does not exist *)

(** C4. When [Get] fails with an error whose message contains "does not
    exist", [read] adds the warning "SDN Zone Not Found", adds no error,
    and resets the model to its name; when [Delete] of the client fails
    with such an error, [Delete] of the resource adds the same warning and
    no error, so that the deletion counts as done. Any other failure of
    [Get] or [Delete] adds an error. *)
Theorem not_found_is_warning (noDataObjectMessage : string)
    (PathEscape : string -> string) (c : zones.Client) :
  (forall model d err,
     snd (zones.Get PathEscape c (types.ValueString (Name model))) = Some err ->
     exists d',
       read noDataObjectMessage PathEscape c model d
       = Ok ((if strings.Contains (Error noDataObjectMessage err) "does not exist"
              then name_only model else model), d')
       /\ (strings.Contains (Error noDataObjectMessage err) "does not exist" = true ->
           diag.HasError d' = diag.HasError d
           /\ exists w, In w d' /\ is_warning w
                        /\ diag.summary w = "SDN Zone Not Found")
       /\ (strings.Contains (Error noDataObjectMessage err) "does not exist" = false ->
           diag.HasError d' = true))
  /\ (forall state stateDiags respDiags err,
        diag.HasError (diag.Append respDiags stateDiags) = false ->
        zones.Delete_ PathEscape c (types.ValueString (Name state)) = Some err ->
        let d' :=
          Delete noDataObjectMessage PathEscape c (state, stateDiags) respDiags in
        (strings.Contains (Error noDataObjectMessage err) "does not exist" = true ->
         diag.HasError d' = false
         /\ exists w, In w d' /\ is_warning w
                      /\ diag.summary w = "SDN Zone Not Found")
        /\ (strings.Contains (Error noDataObjectMessage err) "does not exist" = false ->
            diag.HasError d' = true)).
Proof.
  split.
  - intros model d err Hget. unfold read.
    destruct (zones.Get PathEscape c (types.ValueString (Name model)))
      as [zone e]. simpl in Hget. subst e.
    destruct (strings.Contains (Error noDataObjectMessage err) "does not exist").
    + eexists. split; [reflexivity|]. split; [|discriminate].
      intros _. split; [apply HasError_AddWarning|].
      eexists. split; [apply In_Append1|]. split; reflexivity.
    + eexists. split; [reflexivity|]. split; [discriminate|].
      intros _. apply HasError_AddError.
  - intros state stateDiags respDiags err Hclean Hdel. unfold Delete.
    rewrite Hclean, Hdel.
    destruct (strings.Contains (Error noDataObjectMessage err) "does not exist");
      simpl; split; intros H; try discriminate H.
    + split; [now rewrite HasError_AddWarning|].
      eexists. split; [apply In_Append1|]. split; reflexivity.
    + apply HasError_AddError.
Qed.

Lemma not_found_is_warning_witness :
  (exists d',
     read "no data" (fun s => s) missingClient vlanExample []
     = Ok (name_only vlanExample, d')
     /\ diag.HasError d' = false)
  /\ (exists d',
        read "no data" (fun s => s) brokenClient vlanExample []
        = Ok (vlanExample, d')
        /\ diag.HasError d' = true)
  /\ diag.HasError
       (Delete "no data" (fun s => s) missingClient (vlanExample, []) []) = false
  /\ diag.HasError
       (Delete "no data" (fun s => s) brokenClient (vlanExample, []) []) = true.
Proof.
  split; [|split; [|split]].
  - destruct (proj1 (not_found_is_warning "no data" (fun s => s) missingClient)
                vlanExample [] (Errorf "error reading SDN zone" notFound) eq_refl)
      as [d' [Hread [Hwarn _]]].
    exists d'. split; [exact Hread|]. exact (proj1 (Hwarn eq_refl)).
  - destruct (proj1 (not_found_is_warning "no data" (fun s => s) brokenClient)
                vlanExample [] (Errorf "error reading SDN zone" refused) eq_refl)
      as [d' [Hread [_ Herr]]].
    exists d'. split; [exact Hread|]. exact (Herr eq_refl).
  - exact (proj1 (proj1 (proj2 (not_found_is_warning "no data" (fun s => s)
                                  missingClient)
                           vlanExample [] []
                           (Errorf "error deleting SDN zone" notFound)
                           eq_refl eq_refl) eq_refl)).
  - exact (proj2 (proj2 (not_found_is_warning "no data" (fun s => s)
                           brokenClient)
                    vlanExample [] []
                    (Errorf "error deleting SDN zone" refused)
                    eq_refl eq_refl) eq_refl).
Defined.

(** ** From the wire record to the model *)

Lemma variant_eqb_eq (v w : variant) : variant_eqb v w = true <-> v = w.
Proof.
  destruct v, w; unfold variant_eqb; simpl; split; intros H; congruence.
Qed.

Lemma Split_not_nil (s : string) : strings.Split s "," <> [].
Proof.
  destruct s as [|c s]; simpl; [discriminate|].
  destruct (Ascii.eqb c ","); [discriminate|].
  destruct (strings.Split s ","); discriminate.
Qed.

Lemma Join_Split (s : string) : strings.Join (strings.Split s ",") "," = s.
Proof.
  induction s as [|c s IH]; [reflexivity|].
  pose proof (Split_not_nil s) as Hn.
  cbn [strings.Split]. destruct (Ascii.eqb c ",") eqn:E.
  - apply Ascii.eqb_eq in E. subst c.
    destruct (strings.Split s ",") as [|piece pieces]; [congruence|].
    change (strings.Join ("" :: piece :: pieces) ",")
      with (String.String "," (strings.Join (piece :: pieces) ",")).
    now rewrite IH.
  - destruct (strings.Split s ",") as [|piece [|p pieces]]; [congruence| |].
    + simpl in *. now subst.
    + change (strings.Join (String.String c piece :: p :: pieces) ",")
        with (String.String c (strings.Join (piece :: p :: pieces) ",")).
      now rewrite IH.
Qed.

Lemma Split_comma_free_pieces (s : string) :
  forallb comma_free (strings.Split s ",") = true.
Proof.
  induction s as [|c s IH]; [reflexivity|].
  simpl. destruct (Ascii.eqb c ",") eqn:E; [exact IH|].
  destruct (strings.Split s ",") as [|piece pieces]; simpl in *.
  - now rewrite E.
  - rewrite E. exact IH.
Qed.

Lemma known_values (l : list string) :
  map types.ValueString (map types.StringValue l) = l.
Proof. induction l as [|x l IH]; simpl; [reflexivity|now rewrite IH]. Qed.

Lemma listPointer_of_string (p : option string) :
  not_empty p = true -> listPointer (fst (convertStringToList p [])) = p.
Proof.
  destruct p as [s|]; [|reflexivity]. unfold convertStringToList. simpl.
  intros H. apply negb_true_iff in H. rewrite H. unfold listPointer. simpl.
  now rewrite known_values, Join_Split.
Qed.

(** X3. Every non-empty comma-separated string survives
    [convertStringToList] followed by [convertListToString], whatever its
    commas; the list in between is known, not empty, and none of its
    elements holds a comma, so that it survives the way back as well. *)
Theorem string_list_string (s : string) (d : diag.Diagnostics) :
  s <> "" ->
  let l := fst (convertStringToList (Some s) d) in
  convertListToString l d = (Some s, d)
  /\ comma_safe l = true
  /\ convertStringToList (fst (convertListToString l d)) d = (l, d).
Proof.
  intros Hs. apply String.eqb_neq in Hs.
  assert (Hsafe : comma_safe (fst (convertStringToList (Some s) d)) = true).
  { unfold convertStringToList. rewrite Hs. simpl.
    pose proof (Split_comma_free_pieces s) as Hp.
    pose proof (Split_not_nil s) as Hn. pose proof (Join_Split s) as Hj.
    destruct (strings.Split s ",") as [|p [|q ps]]; [congruence| |].
    - simpl in *. rewrite Hp. subst p. now rewrite Hs.
    - assert (E : forall l, forallb comma_free l = true ->
                 forallb is_known (map types.StringValue l)
                 && forallb (fun e => comma_free (types.ValueString e))
                      (map types.StringValue l) = true).
      { induction l as [|x l IH]; simpl; [reflexivity|].
        intros H. apply andb_prop in H. destruct H as [Hx Hl].
        apply IH in Hl. apply andb_prop in Hl. destruct Hl as [-> ->].
        now rewrite Hx. }
      unfold comma_safe. rewrite (E _ Hp). reflexivity. }
  cbv zeta. rewrite convertListToString_split.
  assert (Hl : listPointer (fst (convertStringToList (Some s) d)) = Some s).
  { rewrite convertStringToList_diags. apply listPointer_of_string.
    simpl. now rewrite Hs. }
  split; [now rewrite Hl|]. split; [exact Hsafe|].
  simpl. now apply list_roundtrip.
Qed.

Lemma string_list_string_witness :
  let l := fst (convertStringToList (Some ",a,,b") []) in
  convertListToString l [] = (Some ",a,,b", [])
  /\ comma_safe l = true
  /\ convertStringToList (fst (convertListToString l [])) [] = (l, []).
Proof.
  apply (string_list_string ",a,,b" []). discriminate.
Defined.

Lemma ValueStringPointer_inv (p : option string) :
  types.ValueStringPointer (types.PointerValue p) = p.
Proof. destruct p; reflexivity. Qed.

Lemma ValueInt32Pointer_inv (p : option int32) :
  types.ValueInt32Pointer (types.PointerValue p) = p.
Proof. destruct p; reflexivity. Qed.

Lemma ValueBoolPointer_inv (p : option bool) :
  types.ValueBoolPointer (types.PointerValue p) = p.
Proof. destruct p; reflexivity. Qed.

(** X1. On a wire record whose type is that of the variant [v],
    [importFromSdnZoneBody] returns without adding a diagnostic, sets the
    block of [v] and takes the name of the record; it leaves every other
    block of the model as it was, so that a fresh model ends with exactly
    one block, and a model that had another block ends with two. *)
Theorem import_recognized_type (m : sdnZoneResourceModel)
    (body : zones.SdnZoneBody) (d : diag.Diagnostics) (v : variant) :
  zones.Type_ body = Some (discriminant v) ->
  exists m',
    importFromSdnZoneBody m body d = Ok (m', d)
    /\ is_set m' v = true
    /\ Name m' = types.Known (zones.Name body)
    /\ (forall w, w <> v -> same_block w m m')
    /\ (first_variant m = None -> exactly_one m')
    /\ (forall w, w <> v -> is_set m w = true ->
                  length (filter (is_set m') priority) >= 2).
Proof.
  intros HT. unfold importFromSdnZoneBody.
  rewrite convertStringToList_diags, HT. cbv beta iota zeta.
  unfold deref, bind.
  destruct m as [name mtu nodes ipam dns rdns zone s vl x q e].
  destruct v; cbn [discriminant String.eqb Ascii.eqb Bool.eqb];
    rewrite ?(convertStringToList_diags _ d); cbv beta iota zeta;
    (eexists; split; [reflexivity|]);
    (split; [reflexivity|]); (split; [reflexivity|]);
    (split; [intros w Hw; destruct w; try reflexivity; congruence|]);
    (split;
     [ unfold first_variant, exactly_one; simpl;
       destruct s, vl, x, q, e; simpl; intros H; try discriminate H;
       reflexivity
     | intros w Hw; destruct w; try congruence; simpl;
       destruct s, vl, x, q, e; simpl; intros H; try discriminate H; lia ]).
Qed.

Lemma import_recognized_type_witness :
  exists m',
    importFromSdnZoneBody vlanExample vxlanRecord [] = Ok (m', [])
    /\ is_set m' VVxlan = true
    /\ Name m' = types.Known "z2"
    /\ (forall w, w <> VVxlan -> same_block w vlanExample m')
    /\ (first_variant vlanExample = None -> exactly_one m')
    /\ (forall w, w <> VVxlan -> is_set vlanExample w = true ->
                  length (filter (is_set m') priority) >= 2).
Proof.
  apply (import_recognized_type vlanExample vxlanRecord [] VVxlan).
  reflexivity.
Defined.

Ltac nil_fields :=
  repeat match goal with
         | H : isNil ?p = true |- _ =>
             destruct p; [discriminate H|clear H]
         | H : (true || _)%bool = true |- _ => clear H
         | H : true = true |- _ => clear H
         end.

(** X2. A wire record as the resource writes it for a zone type survives
    [importFromSdnZoneBody] into a fresh model followed by
    [exportToSdnZoneBody]: the model in between has exactly one block and
    exports to the same record, without any diagnostic. *)
Theorem export_import_record (v : variant) (b : zones.SdnZoneBody)
    (d : diag.Diagnostics) :
  normal_record v b = true ->
  exists m,
    importFromSdnZoneBody zeroModel b d = Ok (m, d)
    /\ exactly_one m
    /\ exportToSdnZoneBody m d = (b, d).
Proof.
  intros H. destruct b. unfold normal_record in H. simpl in H.
  destruct Type_ as [t|]; [|discriminate H].
  destruct v; unfold field_in in H; simpl in H; split_andb;
    match goal with
    | H : (t =? _)%string = true |- _ => apply String.eqb_eq in H; subst t
    end;
    nil_fields;
    unfold importFromSdnZoneBody; simpl zones.Nodes; simpl zones.Type_;
    rewrite convertStringToList_diags; cbv beta iota zeta;
    unfold deref, bind; cbn [String.eqb Ascii.eqb Bool.eqb];
    rewrite ?(convertStringToList_diags _ d); cbv beta iota zeta;
    (eexists; split; [reflexivity|]); (split; [reflexivity|]);
    rewrite exportToSdnZoneBody_split; f_equal;
    unfold wireRecord, exportToSdnZoneBody;
    repeat (rewrite ?convertListToString_split;
            progress cbn -[listPointer convertStringToList
                           types.ValueStringPointer types.ValueInt32Pointer
                           types.ValueBoolPointer types.PointerValue]);
    unfold types.StringPointerValue, types.Int32PointerValue,
      types.BoolPointerValue;
    rewrite ?ValueStringPointer_inv, ?ValueInt32Pointer_inv,
      ?ValueBoolPointer_inv;
    repeat match goal with
           | H : not_empty ?p = true |- _ =>
               rewrite ?(listPointer_of_string p H); clear H
           end;
    reflexivity.
Qed.

Lemma export_import_record_witness :
  exists m,
    importFromSdnZoneBody zeroModel vxlanRecord [] = Ok (m, [])
    /\ exactly_one m
    /\ exportToSdnZoneBody m [] = (vxlanRecord, []).
Proof.
  apply (export_import_record VVxlan vxlanRecord []). reflexivity.
Defined.

(** ** Reading through the client *)

Lemma import_untyped (m : sdnZoneResourceModel) (b : zones.SdnZoneBody)
    (d : diag.Diagnostics) :
  zones.Type_ b = None ->
  importFromSdnZoneBody m b d
  = Panic "invalid memory address or nil pointer dereference".
Proof.
  intros HT. unfold importFromSdnZoneBody.
  rewrite convertStringToList_diags, HT. reflexivity.
Qed.

Lemma import_typed (m : sdnZoneResourceModel) (b : zones.SdnZoneBody)
    (d : diag.Diagnostics) (t : string) :
  zones.Type_ b = Some t -> exists r, importFromSdnZoneBody m b d = Ok r.
Proof.
  intros HT. unfold importFromSdnZoneBody.
  rewrite convertStringToList_diags, HT. cbv beta iota zeta.
  unfold deref, bind.
  repeat match goal with
         | |- context [if ?c then _ else _] => destruct c
         end;
    rewrite ?(convertStringToList_diags _ d); eexists; reflexivity.
Qed.

Lemma Contains_reading (t : string) :
  strings.Contains ("error reading SDN zone" ++ ": " ++ t) "does not exist"
  = strings.Contains t "does not exist".
Proof. reflexivity. Qed.

Lemma Contains_deleting (t : string) :
  strings.Contains ("error deleting SDN zone" ++ ": " ++ t) "does not exist"
  = strings.Contains t "does not exist".
Proof. reflexivity. Qed.

(** X4. The prefix that the client puts before the error of a request
    neither hides nor makes up the words "does not exist": when the [Get]
    request fails, [read] resets the model to its name with a warning
    exactly when the message of the request error holds these words, and
    adds an error otherwise; when the [Delete] request fails, [Delete] of
    the resource ends with an error exactly when the message of the
    request error lacks them. *)
Theorem not_found_through_wrapping (noDataObjectMessage : string)
    (PathEscape : string -> string) (c : zones.Client) :
  (forall model d err resBody,
     zones.DoRequestGet c zones.MethodGet
       (zones.ExpandPath (PathEscape (types.ValueString (Name model))))
     = (Some err, resBody) ->
     let missing :=
       strings.Contains (Error noDataObjectMessage err) "does not exist" in
     exists d',
       read noDataObjectMessage PathEscape c model d
       = Ok ((if missing then name_only model else model), d')
       /\ diag.HasError d' = (diag.HasError d || negb missing)%bool)
  /\ (forall state stateDiags respDiags err,
        diag.HasError (diag.Append respDiags stateDiags) = false ->
        zones.DoRequest c zones.MethodDelete
          (zones.ExpandPath (PathEscape (types.ValueString (Name state)))) None
        = Some err ->
        diag.HasError
          (Delete noDataObjectMessage PathEscape c (state, stateDiags) respDiags)
        = negb (strings.Contains (Error noDataObjectMessage err) "does not exist")).
Proof.
  split.
  - intros model d err resBody Hreq. unfold read, zones.Get. rewrite Hreq.
    cbn [Error]. rewrite Contains_reading. cbv zeta.
    destruct (strings.Contains (Error noDataObjectMessage err) "does not exist").
    + eexists. split; [reflexivity|].
      rewrite HasError_AddWarning. now rewrite orb_false_r.
    + eexists. split; [reflexivity|].
      rewrite HasError_AddError. now rewrite orb_true_r.
  - intros state stateDiags respDiags err Hclean Hreq.
    unfold Delete, zones.Delete_. rewrite Hclean, Hreq.
    cbn [Error]. rewrite Contains_deleting.
    destruct (strings.Contains (Error noDataObjectMessage err) "does not exist").
    + now rewrite HasError_AddWarning.
    + now rewrite HasError_AddError.
Qed.

Lemma not_found_through_wrapping_witness :
  (exists d',
     read "no data" (fun s => s) missingClient vlanExample []
     = Ok (name_only vlanExample, d')
     /\ diag.HasError d' = false)
  /\ diag.HasError
       (Delete "no data" (fun s => s) brokenClient (vlanExample, []) [])
     = true.
Proof.
  split.
  - apply (proj1 (not_found_through_wrapping "no data" (fun s => s)
                    missingClient)
             vlanExample [] notFound {| zones.get_Data := None |} eq_refl).
  - apply (proj2 (not_found_through_wrapping "no data" (fun s => s)
                    brokenClient)
             vlanExample [] [] refused eq_refl eq_refl).
Defined.

(** X6. [read] panics exactly when the [Get] request succeeds with a
    record that has no type; in every other case it returns. *)
Theorem read_panics_iff (noDataObjectMessage : string)
    (PathEscape : string -> string) (c : zones.Client)
    (model : sdnZoneResourceModel) (d : diag.Diagnostics) :
  (exists msg, read noDataObjectMessage PathEscape c model d = Panic msg)
  <-> (exists b,
         zones.DoRequestGet c zones.MethodGet
           (zones.ExpandPath (PathEscape (types.ValueString (Name model))))
         = (None, {| zones.get_Data := Some b |})
         /\ zones.Type_ b = None).
Proof.
  unfold read, zones.Get.
  destruct (zones.DoRequestGet c zones.MethodGet
              (zones.ExpandPath (PathEscape (types.ValueString (Name model)))))
    as [[err|] [[b|]]]; cbn [zones.get_Data]; cbv beta iota zeta.
  - split; [|intros [b' [H _]]; discriminate H].
    destruct (strings.Contains _ _); intros [msg H]; discriminate H.
  - split; [|intros [b' [H _]]; discriminate H].
    destruct (strings.Contains _ _); intros [msg H]; discriminate H.
  - unfold deref, bind. cbv beta iota.
    destruct (zones.Type_ b) as [t|] eqn:HT.
    + destruct (import_typed model b d t HT) as [r Hr]. rewrite Hr.
      split; [intros [msg H]; discriminate H|].
      intros [b' [H Hn]]. injection H as <-. congruence.
    + split; [intros _; now exists b|].
      intros _. rewrite (import_untyped model b d HT). eauto.
  - split; [|intros [b' [H _]]; discriminate H].
    destruct (strings.Contains _ _); intros [msg H]; discriminate H.
Qed.

Lemma read_panics_iff_witness :
  exists msg,
    read "no data" (fun s => s) (storingClient untypedRecord) vlanExample []
    = Panic msg.
Proof.
  apply (proj2 (read_panics_iff "no data" (fun s => s)
                  (storingClient untypedRecord) vlanExample [])).
  exists untypedRecord. split; reflexivity.
Defined.

(** ** Create, Read and Update *)

Lemma import_of_export (m : sdnZoneResourceModel) (d : diag.Diagnostics) :
  exactly_one m -> all_populated m = true -> lists_comma_safe m = true ->
  importFromSdnZoneBody m (wireRecord m) d = Ok (m, d).
Proof.
  intros Hone Hpop Hsafe.
  pose proof (import_export m m d Hone Hpop Hsafe (fun v H => H)) as H.
  unfold roundtrip in H. now rewrite exportToSdnZoneBody_split in H.
Qed.

Lemma exportToUpdateBody_returns (m : sdnZoneResourceModel)
    (d : diag.Diagnostics) :
  exists b, exportToUpdateBody m d = Ok (b, d).
Proof.
  unfold exportToUpdateBody.
  rewrite exportToSdnZoneBody_split. cbv beta iota zeta.
  destruct (first_variant m) as [v|] eqn:E.
  - destruct (wireRecord_first m v E) as [-> _]. eexists. reflexivity.
  - destruct (wireRecord_none m E) as [-> _]. eexists. reflexivity.
Qed.

(** X5. No drift: for a plan with exactly one block other than evpn (an
    evpn block does not get past [Plan.Get], as the schema keys one of its
    attributes differently from the model), all fields populated and lists
    that survive the encoding, if the server accepts every request and
    [Get] answers with the record that the plan exports, then [read]
    returns the plan unchanged, and [Create], [Update] and [Read], started
    without diagnostics, hand the plan itself to [State.Set]. *)
Theorem stored_plan_is_read_back (noDataObjectMessage : string)
    (PathEscape : string -> string) (c : zones.Client)
    (plan : sdnZoneResourceModel)
    (stateSet : sdnZoneResourceModel -> diag.Diagnostics) :
  exactly_one plan ->
  EVPN plan = None ->
  all_populated plan = true ->
  lists_comma_safe plan = true ->
  (forall method path body, zones.DoRequest c method path body = None) ->
  zones.DoRequestGet c zones.MethodGet
    (zones.ExpandPath (PathEscape (types.ValueString (Name plan))))
  = (None, {| zones.get_Data := Some (wireRecord plan) |}) ->
  (forall d, read noDataObjectMessage PathEscape c plan d = Ok (plan, d))
  /\ Create noDataObjectMessage PathEscape c (plan, []) stateSet []
     = Ok (diag.Append [] (stateSet plan), Some plan)
  /\ Update noDataObjectMessage PathEscape c (plan, []) stateSet []
     = Ok (diag.Append [] (stateSet plan), Some plan)
  /\ Read noDataObjectMessage PathEscape c (plan, []) stateSet []
     = Ok (diag.Append [] (stateSet plan), Some plan).
Proof.
  intros Hone _ Hpop Hsafe Hok Hget.
  assert (Hread : forall d,
            read noDataObjectMessage PathEscape c plan d = Ok (plan, d)).
  { intros d. unfold read, zones.Get. rewrite Hget.
    cbn [zones.get_Data deref bind]. now apply import_of_export. }
  split; [exact Hread|]. split; [|split].
  - unfold Create. cbn [diag.Append fold_left diag.HasError existsb].
    rewrite exportToSdnZoneBody_split. unfold zones.Create. rewrite Hok.
    rewrite Hread. reflexivity.
  - unfold Update. cbn [diag.Append fold_left diag.HasError existsb].
    destruct (exportToUpdateBody_returns plan []) as [b ->].
    cbn [bind]. unfold zones.Update. rewrite Hok. rewrite Hread. reflexivity.
  - unfold Read. cbn [diag.Append fold_left diag.HasError existsb].
    rewrite Hread. reflexivity.
Qed.

Lemma stored_plan_is_read_back_witness :
  (forall d,
     read "no data" (fun s => s) (storingClient (wireRecord vxlanExample))
       vxlanExample d = Ok (vxlanExample, d))
  /\ Create "no data" (fun s => s) (storingClient (wireRecord vxlanExample))
       (vxlanExample, []) (fun _ => []) []
     = Ok ([], Some vxlanExample)
  /\ Update "no data" (fun s => s) (storingClient (wireRecord vxlanExample))
       (vxlanExample, []) (fun _ => []) []
     = Ok ([], Some vxlanExample)
  /\ Read "no data" (fun s => s) (storingClient (wireRecord vxlanExample))
       (vxlanExample, []) (fun _ => []) []
     = Ok ([], Some vxlanExample).
Proof.
  apply (stored_plan_is_read_back "no data" (fun s => s)
           (storingClient (wireRecord vxlanExample)) vxlanExample (fun _ => []));
    reflexivity.
Defined.

(** X7. When the plan or the state cannot be read (the diagnostics hold an
    error), [Create], [Update], [Read] and [Delete] return these
    diagnostics at once, whatever the server would answer, and [State.Set]
    is not reached. When the server refuses the request of [Create] or
    [Update], they return with an error added and [State.Set] is not
    reached either. *)
Theorem failed_request_sets_no_state (noDataObjectMessage : string)
    (PathEscape : string -> string) (c : zones.Client)
    (plan : sdnZoneResourceModel) (planDiags respDiags : diag.Diagnostics)
    (stateSet : sdnZoneResourceModel -> diag.Diagnostics) :
  let d := diag.Append respDiags planDiags in
  (diag.HasError d = true ->
   Create noDataObjectMessage PathEscape c (plan, planDiags) stateSet respDiags
   = Ok (d, None)
   /\ Update noDataObjectMessage PathEscape c (plan, planDiags) stateSet respDiags
      = Ok (d, None)
   /\ Read noDataObjectMessage PathEscape c (plan, planDiags) stateSet respDiags
      = Ok (d, None)
   /\ Delete noDataObjectMessage PathEscape c (plan, planDiags) respDiags = d)
  /\ (diag.HasError d = false ->
      forall err,
        (forall method path body, zones.DoRequest c method path body = Some err) ->
        exists d1 d2,
          Create noDataObjectMessage PathEscape c (plan, planDiags) stateSet
            respDiags = Ok (d1, None)
          /\ diag.HasError d1 = true
          /\ Update noDataObjectMessage PathEscape c (plan, planDiags) stateSet
               respDiags = Ok (d2, None)
          /\ diag.HasError d2 = true).
Proof.
  cbv zeta. split.
  - intros H. unfold Create, Update, Read, Delete. rewrite H. auto.
  - intros H err Hreq. unfold Create, Update. rewrite H.
    rewrite exportToSdnZoneBody_split.
    destruct (exportToUpdateBody_returns plan (diag.Append respDiags planDiags))
      as [b ->].
    cbn [bind]. unfold zones.Create, zones.Update. rewrite !Hreq.
    eexists. eexists. split; [reflexivity|].
    split; [apply HasError_AddError|]. split; [reflexivity|].
    apply HasError_AddError.
Qed.

Lemma failed_request_sets_no_state_witness :
  exists d1 d2,
    Create "no data" (fun s => s) brokenClient (vlanExample, []) (fun _ => []) []
    = Ok (d1, None)
    /\ diag.HasError d1 = true
    /\ Update "no data" (fun s => s) brokenClient (vlanExample, [])
         (fun _ => []) [] = Ok (d2, None)
    /\ diag.HasError d2 = true.
Proof.
  apply (proj2 (failed_request_sets_no_state "no data" (fun s => s) brokenClient
                  vlanExample [] [] (fun _ => [])) eq_refl refused).
  reflexivity.
Defined.

(** ** Replacement of the resource *)

(** X8. For a state and a plan with exactly one block each, the plan
    modifiers of the blocks ask for a replacement exactly when the zone
    type changes: never when the same block is set on both sides,
    whatever its attributes, and always when the blocks differ. *)
Theorem replace_iff_type_changes (state plan : sdnZoneResourceModel) :
  exactly_one state ->
  exactly_one plan ->
  (replaceRequired state plan = true
   <-> first_variant state <> first_variant plan).
Proof.
  intros Hs Hp. unfold replaceRequired, first_variant.
  destruct state as [? ? ? ? ? ? ? s1 s2 s3 s4 s5].
  destruct plan as [? ? ? ? ? ? ? p1 p2 p3 p4 p5].
  unfold exactly_one in Hs, Hp. simpl in Hs, Hp.
  destruct s1, s2, s3, s4, s5; simpl in Hs; try discriminate Hs;
    destruct p1, p2, p3, p4, p5; simpl in Hp; try discriminate Hp;
    simpl; split; intros H; try congruence; try discriminate H;
    exfalso; apply H; reflexivity.
Qed.

Lemma replace_iff_type_changes_witness :
  replaceRequired vlanExample evpnExample = true
  <-> first_variant vlanExample <> first_variant evpnExample.
Proof.
  apply (replace_iff_type_changes vlanExample evpnExample); reflexivity.
Defined.

(** ** The schema and the model *)

(** X9. Apart from the evpn block, the schema and the model agree: the
    attributes of the resource are keyed by the tags of
    [sdnZoneResourceModel], in the same order, and the blocks simple,
    vlan, vxlan and qinq by the tags of their model structs; in the evpn
    block every key but the second is the tag at the same place. *)
Theorem schema_matches_model_tags :
  map fst Schema = sdnZoneResourceModel_tfsdk
  /\ blockAttributes "simple" = sdnZoneSimpleModel_tfsdk
  /\ blockAttributes "vlan" = sdnZoneVlanModel_tfsdk
  /\ blockAttributes "vxlan" = sdnZoneVxlanModel_tfsdk
  /\ blockAttributes "qinq" = sdnZoneQinQModel_tfsdk
  /\ length (blockAttributes "evpn") = length sdnZoneEvpnModel_tfsdk
  /\ (forall i, i <> 1 ->
        nth_error (blockAttributes "evpn") i = nth_error sdnZoneEvpnModel_tfsdk i).
Proof.
  repeat split.
  intros i Hi. do 10 (destruct i as [|i]; [try reflexivity; congruence|]).
  reflexivity.
Qed.

Lemma schema_matches_model_tags_witness :
  nth_error (blockAttributes "evpn") 2 = nth_error sdnZoneEvpnModel_tfsdk 2.
Proof.
  apply (proj2 (proj2 (proj2 (proj2 (proj2 (proj2
           schema_matches_model_tags)))))).
  discriminate.
Defined.

(** ** The order of the listed zones *)

Lemma sorted_names (l : list zones.SdnZoneBody) :
  StronglySorted name_le l ->
  StronglySorted (fun a b => (a <=? b)%string = true) (map zones.Name l).
Proof.
  induction 1 as [|x l Hl IH Hx]; simpl; constructor; [exact IH|].
  apply Forall_forall. intros n Hn. apply in_map_iff in Hn.
  destruct Hn as [y [<- Hy]]. rewrite Forall_forall in Hx. now apply Hx.
Qed.

Lemma sorted_perm_eq (l1 l2 : list string) :
  StronglySorted (fun a b => (a <=? b)%string = true) l1 ->
  StronglySorted (fun a b => (a <=? b)%string = true) l2 ->
  Permutation l1 l2 -> l1 = l2.
Proof.
  intros H1. revert l2. induction H1 as [|a l1 Hl1 IH Ha]; intros l2 H2 Hp.
  - now apply Permutation_nil in Hp.
  - destruct H2 as [|b l2 Hl2 Hb].
    + apply Permutation_sym, Permutation_nil in Hp. discriminate Hp.
    + assert (Hab : a = b).
      { rewrite Forall_forall in Ha, Hb.
        assert (Ia : In a (b :: l2))
          by (eapply Permutation_in; [exact Hp|now left]).
        assert (Ib : In b (a :: l1))
          by (eapply Permutation_in;
              [apply Permutation_sym; exact Hp|now left]).
        destruct Ia as [->|Ia]; [reflexivity|].
        destruct Ib as [->|Ib]; [reflexivity|].
        apply String.leb_antisym; [now apply Ha|now apply Hb]. }
      subst b. f_equal. apply IH; [exact Hl2|].
      eapply Permutation_cons_inv; exact Hp.
Qed.

(** X10. The names that [List] returns, in their order, depend only on
    which records the server sends, not on the order in which it sends
    them: two responses that are permutations of each other give the same
    sequence of names. *)
Theorem List_names_canonical (c1 c2 : zones.Client)
    (data1 data2 : list zones.SdnZoneBody) :
  zones.DoRequestList c1 zones.MethodGet (zones.ExpandPath "")
  = (None, {| zones.list_Data := Some data1 |}) ->
  zones.DoRequestList c2 zones.MethodGet (zones.ExpandPath "")
  = (None, {| zones.list_Data := Some data2 |}) ->
  Permutation data1 data2 ->
  exists l1 l2,
    zones.List c1 = (Some l1, None) /\ zones.List c2 = (Some l2, None)
    /\ map zones.Name l1 = map zones.Name l2.
Proof.
  intros H1 H2 Hp. unfold zones.List. rewrite H1, H2.
  cbn [zones.list_Data]. eexists. eexists.
  split; [reflexivity|]. split; [reflexivity|].
  destruct (Slice_sorted data1) as [S1 P1].
  destruct (Slice_sorted data2) as [S2 P2].
  apply sorted_perm_eq; [now apply sorted_names|now apply sorted_names|].
  apply Permutation_map. now rewrite <- P1, <- P2.
Qed.

Lemma List_names_canonical_witness :
  exists l1 l2,
    zones.List listingClient = (Some l1, None)
    /\ zones.List reorderedClient = (Some l2, None)
    /\ map zones.Name l1 = map zones.Name l2.
Proof.
  apply (List_names_canonical listingClient reorderedClient
           [namedRecord "zb"; namedRecord "zc"; namedRecord "za"]
           [namedRecord "za"; namedRecord "zb"; namedRecord "zc"]);
    try reflexivity.
  apply Permutation_sym.
  apply (Permutation_cons_app [namedRecord "zb"; namedRecord "zc"] []).
  apply Permutation_refl.
Defined.

(** ** Null and unknown attributes on the wire *)

(** X11. In the record of [exportToSdnZoneBody] the name is the name of
    the model, and the fields delete, dp-id and bridge-disable-mac-learning
    are never set. A scalar base attribute gives a nil field exactly when
    it is null (an unknown one is sent as the zero value), while the list
    of nodes gives a nil field exactly when it is null or unknown (an
    empty list is sent as the empty string). *)
Theorem export_null_and_unknown (m : sdnZoneResourceModel)
    (d : diag.Diagnostics) :
  let b := fst (exportToSdnZoneBody m d) in
  zones.Name b = types.ValueString (Name m)
  /\ zones.Delete b = None
  /\ zones.DpID b = None
  /\ zones.BridgeDisableMacLearning b = None
  /\ is_nil b FMtu = types.IsNull (MTU m)
  /\ is_nil b FIpam = types.IsNull (IPAM m)
  /\ is_nil b FDns = types.IsNull (DNS m)
  /\ is_nil b FReversedns = types.IsNull (ReverseDNS m)
  /\ is_nil b FDnszone = types.IsNull (DNSZone m)
  /\ is_nil b FNodes = (types.IsNull (Nodes m) || types.IsUnknown (Nodes m))%bool
  /\ (MTU m = types.Unknown -> zones.Mtu b = Some 0%Z)
  /\ (Nodes m = types.Known [] -> zones.Nodes b = Some "").
Proof.
  rewrite exportToSdnZoneBody_split. cbv zeta. simpl fst.
  destruct m as [name mtu nodes ipam dns rdns zone s vl x q e].
  destruct s, vl, x, q, e; reduce_export; unfold listPointer;
    repeat split; try reflexivity;
    try (destruct mtu; reflexivity); try (destruct ipam; reflexivity);
    try (destruct dns; reflexivity); try (destruct rdns; reflexivity);
    try (destruct zone; reflexivity); try (destruct nodes; reflexivity);
    intros ->; reflexivity.
Qed.

Lemma export_null_and_unknown_witness :
  zones.Mtu (fst (exportToSdnZoneBody (mkModel (types.Known "z1") types.Unknown
                    (types.Known []) types.Null types.Null types.Null types.Null
                    None None None None None) []))
  = Some 0%Z
  /\ zones.Nodes (fst (exportToSdnZoneBody (mkModel (types.Known "z1")
                    types.Unknown (types.Known []) types.Null types.Null
                    types.Null types.Null None None None None None) []))
     = Some "".
Proof.
  pose proof (export_null_and_unknown
                (mkModel (types.Known "z1") types.Unknown (types.Known [])
                   types.Null types.Null types.Null types.Null
                   None None None None None) []) as H.
  cbv zeta in H.
  destruct H as [_ [_ [_ [_ [_ [_ [_ [_ [_ [_ [Hm Hn]]]]]]]]]]].
  split; [apply Hm|apply Hn]; reflexivity.
Defined.

(** ** Records that the resource cannot keep *)

Lemma import_other_type (m : sdnZoneResourceModel) (b : zones.SdnZoneBody)
    (d : diag.Diagnostics) (t : string) :
  zones.Type_ b = Some t ->
  ~ In t (map discriminant priority) ->
  exists m' d',
    importFromSdnZoneBody m b d = Ok (m', d') /\ diag.HasError d' = true.
Proof.
  intros HT Hnot. unfold importFromSdnZoneBody.
  rewrite convertStringToList_diags, HT. cbv beta iota zeta. unfold deref, bind.
  assert (Hne : forall v, (t =? discriminant v)%string = false).
  { intros v. apply String.eqb_neq. intros ->. apply Hnot.
    apply in_map. destruct v; simpl; tauto. }
  pose proof (Hne VSimple) as H1. pose proof (Hne VVlan) as H2.
  pose proof (Hne VVxlan) as H3. pose proof (Hne VQinQ) as H4.
  pose proof (Hne VEvpn) as H5. simpl in H1, H2, H3, H4, H5.
  rewrite H1, H2, H3, H4, H5.
  eexists. eexists. split; [reflexivity|]. apply HasError_AddError.
Qed.

(** X12. When the server accepts every request and [Get] answers with a
    record of a type that the resource does not know, [Read], [Create] and
    [Update], started without diagnostics, end with an error, and
    [State.Set] is not reached. *)
Theorem unknown_type_sets_no_state (noDataObjectMessage : string)
    (PathEscape : string -> string) (c : zones.Client)
    (model : sdnZoneResourceModel) (b : zones.SdnZoneBody) (t : string)
    (stateSet : sdnZoneResourceModel -> diag.Diagnostics) :
  zones.Type_ b = Some t ->
  ~ In t (map discriminant priority) ->
  (forall method path body, zones.DoRequest c method path body = None) ->
  zones.DoRequestGet c zones.MethodGet
    (zones.ExpandPath (PathEscape (types.ValueString (Name model))))
  = (None, {| zones.get_Data := Some b |}) ->
  exists d1 d2 d3,
    Read noDataObjectMessage PathEscape c (model, []) stateSet [] = Ok (d1, None)
    /\ diag.HasError d1 = true
    /\ Create noDataObjectMessage PathEscape c (model, []) stateSet []
       = Ok (d2, None)
    /\ diag.HasError d2 = true
    /\ Update noDataObjectMessage PathEscape c (model, []) stateSet []
       = Ok (d3, None)
    /\ diag.HasError d3 = true.
Proof.
  intros HT Hnot Hok Hget.
  destruct (import_other_type model b [] t HT Hnot) as [m' [d' [Himp Herr]]].
  assert (Hread : read noDataObjectMessage PathEscape c model [] = Ok (m', d')).
  { unfold read, zones.Get. rewrite Hget. cbn [zones.get_Data deref bind].
    exact Himp. }
  exists d', d', d'.
  unfold Read, Create, Update.
  cbn [diag.Append fold_left diag.HasError existsb].
  rewrite exportToSdnZoneBody_split.
  destruct (exportToUpdateBody_returns model []) as [u ->].
  cbn [bind]. unfold zones.Create, zones.Update. rewrite !Hok, Hread.
  cbn [bind]. rewrite Herr. repeat split; assumption.
Qed.

Lemma unknown_type_sets_no_state_witness :
  exists d1 d2 d3,
    Read "no data" (fun s => s) (storingClient faucetRecord) (vlanExample, [])
      (fun _ => []) [] = Ok (d1, None)
    /\ diag.HasError d1 = true
    /\ Create "no data" (fun s => s) (storingClient faucetRecord)
         (vlanExample, []) (fun _ => []) [] = Ok (d2, None)
    /\ diag.HasError d2 = true
    /\ Update "no data" (fun s => s) (storingClient faucetRecord)
         (vlanExample, []) (fun _ => []) [] = Ok (d3, None)
    /\ diag.HasError d3 = true.
Proof.
  apply (unknown_type_sets_no_state "no data" (fun s => s)
           (storingClient faucetRecord) vlanExample faucetRecord "faucet"
           (fun _ => [])); try reflexivity.
  simpl. intros H. repeat destruct H as [H|H]; try discriminate H. exact H.
Defined.

(** X13. When the [Get] request fails with a message that holds "does
    not exist", [Read], started without diagnostics, does not stop: it
    hands the model reset to its name to [State.Set], with the warning
    "SDN Zone Not Found" as first diagnostic; the zone stays in the state
    with its name only. *)
Theorem missing_zone_is_kept_by_name (noDataObjectMessage : string)
    (PathEscape : string -> string) (c : zones.Client)
    (state : sdnZoneResourceModel) (err : error)
    (resBody : zones.SdnZoneGetResponseBody)
    (stateSet : sdnZoneResourceModel -> diag.Diagnostics) :
  zones.DoRequestGet c zones.MethodGet
    (zones.ExpandPath (PathEscape (types.ValueString (Name state))))
  = (Some err, resBody) ->
  strings.Contains (Error noDataObjectMessage err) "does not exist" = true ->
  exists w,
    Read noDataObjectMessage PathEscape c (state, []) stateSet []
    = Ok (diag.Append [w] (stateSet (name_only state)), Some (name_only state))
    /\ is_warning w
    /\ diag.summary w = "SDN Zone Not Found"
    /\ forall v, is_set (name_only state) v = false.
Proof.
  intros Hget Hmsg. unfold Read, read, zones.Get.
  cbn [diag.Append fold_left diag.HasError existsb]. rewrite Hget.
  cbn [Error]. rewrite Contains_reading, Hmsg. cbn [bind].
  eexists. split; [reflexivity|]. split; [reflexivity|].
  split; [reflexivity|]. intros []; reflexivity.
Qed.

Lemma missing_zone_is_kept_by_name_witness :
  exists w,
    Read "no data" (fun s => s) missingClient (vlanExample, []) (fun _ => []) []
    = Ok (diag.Append [w] [], Some (name_only vlanExample))
    /\ is_warning w
    /\ diag.summary w = "SDN Zone Not Found"
    /\ forall v, is_set (name_only vlanExample) v = false.
Proof.
  apply (missing_zone_is_kept_by_name "no data" (fun s => s) missingClient
           vlanExample notFound {| zones.get_Data := None |} (fun _ => []));
    reflexivity.
Defined.
